(** * GitHub Roaster: a shallow embedding of [github_roaster.py]

    The program fetches a GitHub profile and the repositories of a user,
    stores both in the state of a CrewAI flow, and, once both producers
    have finished, hands them to a two-task crew that writes a roast.

    Python values are embedded as the type [pyval]; the methods of the flow
    run in a state-and-exception monad over the flow's state dictionary and
    a log of the external calls (HTTP requests, generation calls). *)

From Stdlib Require Import ZArith Ascii String List.
From stdpp Require Import base option strings pretty gmap.
Import ListNotations.
Local Open Scope string_scope.
Local Open Scope Z_scope.

Set Warnings "-register-all".

(** ** Python values *)

(** The values the program handles: what [response.json()] can return, the
    dictionaries the fetchers build, and the tuple [generate_roast] returns.
    A dictionary is the list of its items in insertion order. *)
Inductive pyval : Type :=
| PNone
| PBool (b : bool)
| PInt (z : Z)
| PStr (s : string)
| PList (items : list pyval)
| PTuple (items : list pyval)
| PDict (items : list (string * pyval)).

(** The exceptions that can travel through the program. The first four are
    raised by the operations of the language on a value of the wrong shape;
    the others come from the collaborators ([requests], the JSON decoder,
    the generation backend). *)
Inductive exn : Type :=
| AttributeError (what : string)
| TypeError (what : string)
| KeyError (key : string)
| ValueError (what : string)
| RequestException (what : string)
| JSONDecodeError
| GenerationError (what : string).

Inductive res (A : Type) : Type :=
| Ok (a : A)
| Raise (e : exn).
Arguments Ok {A} a.
Arguments Raise {A} e.

(** Truth value of an object, as [not x], [x or y] and [if x] test it. *)
Definition truthy (v : pyval) : bool :=
  match v with
  | PNone => false
  | PBool b => b
  | PInt z => negb (z =? 0)
  | PStr s => match s with EmptyString => false | String _ _ => true end
  | PList items | PTuple items =>
      match items with [] => false | _ :: _ => true end
  | PDict items => match items with [] => false | _ :: _ => true end
  end.

(** [a or b] *)
Definition py_or (a b : pyval) : pyval := if truthy a then a else b.

Fixpoint assoc (k : string) (items : list (string * pyval)) : option pyval :=
  match items with
  | [] => None
  | (k', v) :: rest => if String.eqb k k' then Some v else assoc k rest
  end.

(** [d.get(k, default)]; only dictionaries have the method. The default
    is used when the key is absent, not when it is bound to [None]. *)
Definition dict_get (d : pyval) (k : string) (default : pyval) : res pyval :=
  match d with
  | PDict items =>
      Ok (match assoc k items with Some v => v | None => default end)
  | _ => Raise (AttributeError "get")
  end.

(** [d[k]] for a string key. *)
Definition subscript (d : pyval) (k : string) : res pyval :=
  match d with
  | PDict items =>
      match assoc k items with
      | Some v => Ok v
      | None => Raise (KeyError k)
      end
  | _ => Raise (TypeError "subscript")
  end.

Fixpoint chars (s : string) : list pyval :=
  match s with
  | EmptyString => []
  | String c rest => PStr (String c EmptyString) :: chars rest
  end.

(** The items a [for] loop or a comprehension draws from a value. *)
Definition py_iter (v : pyval) : res (list pyval) :=
  match v with
  | PList items | PTuple items => Ok items
  | PDict items => Ok (map (fun kv => PStr (fst kv)) items)
  | PStr s => Ok (chars s)
  | PNone | PBool _ | PInt _ => Raise (TypeError "iter")
  end.

(** [sep.join(parts)] *)
Fixpoint join (sep : string) (parts : list string) : string :=
  match parts with
  | [] => ""
  | [p] => p
  | p :: rest => p ++ sep ++ join sep rest
  end.

(** ** The collaborators *)

Record response : Type := Response {
  status_code : Z;
  json : res pyval;
}.

Record Agent : Type := mkAgent {
  role : string;
  goal : string;
  backstory : string;
  llm : string;
  verbose : bool;
}.

Record Task : Type := mkTask {
  description : string;
  agent : Agent;
  expected_output : string;
}.

Record Crew : Type := mkCrew {
  tasks : list Task;
  agents : list Agent;
  crew_verbose : bool;
}.

(** What the program cannot decide by itself: the answers of the GitHub
    API, the text a generation call returns (or the exception it raises),
    the clock, and the text Python prints for a value that is not a
    string. The generation capability receives the agent and the task, the
    [inputs] of the kickoff and the outputs of the tasks before it. *)
Record env : Type := Env {
  requests_get : string -> res response;
  generate : Agent -> Task -> pyval -> list string -> res string;
  today : string;
  repr : pyval -> string;
}.

(** What a run leaves behind in the outside world. *)
Inductive event : Type :=
| HttpGet (url : string)
| GenCall (t : Task)
| GenRet (t : Task) (output : string).

(** The flow object: its state dictionary, and the log of external calls
    made so far (most recent last). *)
Record world : Type := World {
  state : gmap string pyval;
  log : list event;
}.

(** ** The monad of the methods: state and exceptions *)

Definition M (A : Type) : Type := world -> res A * world.

Definition ret {A} (a : A) : M A := fun w => (Ok a, w).

Definition bind {A B} (m : M A) (k : A -> M B) : M B :=
  fun w =>
    match m w with
    | (Ok a, w') => k a w'
    | (Raise e, w') => (Raise e, w')
    end.

Declare Scope py_scope.
Delimit Scope py_scope with py.
Notation "x <- m ;; k" := (bind m (fun x => k))
  (at level 100, m at next level, right associativity) : py_scope.
Notation "m ;;; k" := (bind m (fun _ => k))
  (at level 100, right associativity) : py_scope.
Local Open Scope py_scope.

Definition lift {A} (r : res A) : M A := fun w => (r, w).

Definition emit (e : event) : M unit :=
  fun w => (Ok tt, World (state w) (log w ++ [e])).

(** [self.state[k]] *)
Definition state_index (k : string) : M pyval :=
  fun w =>
    match state w !! k with
    | Some v => (Ok v, w)
    | None => (Raise (KeyError k), w)
    end.

(** [self.state.get(k)] *)
Definition state_get (k : string) : M pyval :=
  fun w =>
    (Ok (match state w !! k with Some v => v | None => PNone end), w).

(** [self.state[k] = v] *)
Definition state_set (k : string) (v : pyval) : M unit :=
  fun w => (Ok tt, World (<[k := v]> (state w)) (log w)).

(** Monadic map, left to right, as a list comprehension evaluates. *)
Fixpoint mapM {A B} (f : A -> res B) (l : list A) : res (list B) :=
  match l with
  | [] => Ok []
  | a :: rest =>
      match f a with
      | Raise e => Raise e
      | Ok b =>
          match mapM f rest with
          | Raise e => Raise e
          | Ok bs => Ok (b :: bs)
          end
      end
  end.

Definition rbind {A B} (r : res A) (k : A -> res B) : res B :=
  match r with
  | Ok a => k a
  | Raise e => Raise e
  end.
Notation "'let?' x := r 'in' k" := (rbind r (fun x => k))
  (at level 100, x name, r at next level, right associativity, only parsing)
  : py_scope.

(** ** The texts of the crew

    The persona and the instructions of the two agents and tasks. The
    fields in braces are filled in by the crew from the [inputs] of its
    kickoff. *)

Definition analyst_backstory : string :=
"You are an expert at analyzing GitHub profiles and repositories.
            You can spot patterns, identify strengths and weaknesses, and understand what
            makes a developer tick just by looking at their GitHub activity.".

Definition analysis_description : string :=
"
            Current date: {date}
            Analyze the GitHub profile and repositories of user {username}.
            
            User Profile Information:
            {user_info}
            
            Repositories Information:
            {repos}  
            
            Identify patterns in:
            1. Programming languages used
            2. Types of projects created
            3. Commit frequency and activity patterns
            4. Code quality indicators
            5. Project originality vs. forks
            6. Documentation practices
            
            Provide a detailed analysis that can be used for creating a humorous roast.
            Focus on both strengths that can be exaggerated and weaknesses that can be playfully mocked.
            ".

Definition comedian_backstory : string :=
"
            You are a brilliant tech comedian who specializes in roasting developers.
            You understand programming culture deeply and can craft witty, incisive jokes that
            highlight the quirks and patterns in someone's coding style and GitHub presence.
            Your roasts are funny but never cruel - they contain genuine insights wrapped in humor.
            ".

Definition roast_description : string :=
"
            Current date: {date}
            Create a hilarious but insightful roast of GitHub user {username} based on their profile.
            
            User Profile Information:
            {user_info}
            
            The roast should:
            1. Be structured with an introduction, 3-5 specific roasts, and a conclusion
            2. Include jokes about their programming languages, project choices, and coding patterns
            3. Contain tech humor that developers would appreciate
            4. Include some backhanded compliments that recognize their strengths
            5. Be funny but not mean-spirited or offensive
            6. Include a lot of emojis and formatting to make it visually engaging
            
            Format the roast as a comedy routine with clear sections and punchlines.
            It must be long with around 1000 words.
            ".

(** Modelled from the spec: the store of a flow that has just been
    created, [GitHubRoasterFlow()], whose constructor belongs to the crewai
    package and is not among the sources. The store of a run is created
    for the run and holds what the tasks of the run write (sections 2 and
    3): it begins empty, and so does the log. What the framework keeps in
    the store for its own use (crewai puts an [id] there) is left out: no
    method of the program reads it, and no statement below counts on its
    absence. *)
Definition fresh : world := World ∅ [].

Section Program.

Variable E : env.

(** The text an f-string puts for [{v}]. *)
Definition fmt (v : pyval) : string :=
  match v with
  | PStr s => s
  | _ => repr E v
  end.

Definition http (url : string) : M response :=
  emit (HttpGet url) ;;; lift (requests_get E url).

(** ** The fetchers *)

Definition user_record (data : pyval) : res pyval :=
  let? login := dict_get data "login" PNone in
  let? name := dict_get data "name" PNone in
  let? bio := dict_get data "bio" PNone in
  let? followers := dict_get data "followers" (PInt 0) in
  let? following := dict_get data "following" (PInt 0) in
  let? public_repos := dict_get data "public_repos" (PInt 0) in
  let? location := dict_get data "location" PNone in
  let? company := dict_get data "company" PNone in
  let? blog := dict_get data "blog" PNone in
  let? created_at := dict_get data "created_at" PNone in
  let? avatar_url := dict_get data "avatar_url" PNone in
  Ok (PDict
    [ ("username", login);
      ("name", py_or name (PStr "Not provided"));
      ("bio", py_or bio (PStr "No bio provided"));
      ("followers", followers);
      ("following", following);
      ("public_repos", public_repos);
      ("location", py_or location (PStr "Not provided"));
      ("company", py_or company (PStr "Not provided"));
      ("blog", py_or blog (PStr "Not provided"));
      ("created_at", created_at);
      ("avatar_url", avatar_url) ]).

Definition get_github_user_info (username : pyval) : M pyval :=
  let url := "https://api.github.com/users/" ++ fmt username in
  response <- http url ;;
  if negb (status_code response =? 200) then ret PNone
  else
    data <- lift (json response) ;;
    lift (user_record data).

Definition repo_record (repo : pyval) : res pyval :=
  let? name := dict_get repo "name" PNone in
  let? description := dict_get repo "description" PNone in
  let? language := dict_get repo "language" PNone in
  let? stars := dict_get repo "stargazers_count" (PInt 0) in
  let? forks := dict_get repo "forks_count" (PInt 0) in
  let? issues := dict_get repo "open_issues_count" (PInt 0) in
  let? created_at := dict_get repo "created_at" PNone in
  let? updated_at := dict_get repo "updated_at" PNone in
  let? topics := dict_get repo "topics" (PList []) in
  let? is_fork := dict_get repo "fork" (PBool false) in
  Ok (PDict
    [ ("name", name);
      ("description", py_or description (PStr "No description provided"));
      ("language", py_or language (PStr "Not specified"));
      ("stars", stars);
      ("forks", forks);
      ("issues", issues);
      ("created_at", created_at);
      ("updated_at", updated_at);
      ("topics", topics);
      ("is_fork", is_fork) ]).

Definition get_github_repos (username : pyval) : M pyval :=
  let url := "https://api.github.com/users/" ++ fmt username
             ++ "/repos?per_page=100&sort=updated" in
  response <- http url ;;
  if negb (status_code response =? 200) then ret PNone
  else
    repos <- lift (json response) ;;
    lift (let? items := py_iter repos in
          let? records := mapM repo_record items in
          Ok (PList records)).


(** ** The flow *)

(** [start_user_info] *)
Definition start_user_info : M pyval :=
  username <- state_index "username" ;;
  user_info <- get_github_user_info username ;;
  if negb (truthy user_info) then
    ret (PDict [("error", PStr "Failed to fetch user data")])
  else
    state_set "user_info" user_info ;;;
    ret user_info.

(** Newline and the indentation of the lines of the f-string. *)
Definition line_start : string :=
"
                ".

(** The f-string of [start_repo_info] for one repository. *)
Definition render_repo (repo : pyval) : res string :=
  let? name := subscript repo "name" in
  let? description := subscript repo "description" in
  let? language := subscript repo "language" in
  let? stars := subscript repo "stars" in
  let? forks := subscript repo "forks" in
  let? created_at := subscript repo "created_at" in
  let? updated_at := subscript repo "updated_at" in
  let? topics := subscript repo "topics" in
  let? is_fork := subscript repo "is_fork" in
  Ok (line_start ++ "- Name: " ++ fmt name
      ++ line_start ++ "- Description: " ++ fmt description
      ++ line_start ++ "- Language: " ++ fmt language
      ++ line_start ++ "- Stars: " ++ fmt stars
      ++ line_start ++ "- Forks: " ++ fmt forks
      ++ line_start ++ "- Created At: " ++ fmt created_at
      ++ line_start ++ "- Updated At: " ++ fmt updated_at
      ++ line_start ++ "- Topics: " ++ fmt topics
      ++ line_start ++ "- Is Fork: " ++ fmt is_fork
      ++ line_start).

Definition nlnl : string :=
"

".

(** [start_repo_info] *)
Definition start_repo_info : M pyval :=
  username <- state_index "username" ;;
  repos <- get_github_repos username ;;
  if negb (truthy repos) then
    ret (PDict [("error", PStr "Failed to fetch repositories data")])
  else
    texts <- lift (let? items := py_iter repos in mapM render_repo items) ;;
    let repos := PStr (join nlnl texts) in
    state_set "repos" repos ;;;
    ret repos.

Definition data_analyst : Agent :=
  mkAgent "GitHub Data Analyst"
    "Analyze GitHub profiles to find patterns and interesting insights"
    analyst_backstory "gemini/gemini-2.0-flash" true.

Definition analysis_task : Task :=
  mkTask analysis_description data_analyst
    "A detailed analysis of the GitHub profile with roastable insights".

Definition comedian : Agent :=
  mkAgent "Tech Comedian"
    "Create hilarious but insightful roasts of developers based on their GitHub profiles"
    comedian_backstory "gemini/gemini-2.0-flash" true.

Definition roast_task : Task :=
  mkTask roast_description comedian
    "A hilarious, well-structured roast of the GitHub profile".

(** Modelled from the spec: [Crew.kickoff], of the crewai package, whose
    code is not among the sources. The tasks of the crew are executed one
    after the other, in the order of the list: each is one call of the
    generation capability, which receives the outputs of the tasks before
    it, and is dispatched when the previous one has returned. A call that
    fails raises, and ends the kickoff. The result is the output of the
    last task. *)
Fixpoint run_tasks (ts : list Task) (inputs : pyval) (context : list string)
    (last : string) : M string :=
  match ts with
  | [] => ret last
  | t :: rest =>
      emit (GenCall t) ;;;
      output <- lift (generate E (agent t) t inputs context) ;;
      emit (GenRet t output) ;;;
      run_tasks rest inputs (context ++ [output]) output
  end.

Definition crew_kickoff (c : Crew) (inputs : pyval) : M pyval :=
  output <- run_tasks (tasks c) inputs [] "" ;;
  ret (PStr output).

(** [generate_roast] *)
Definition generate_roast : M pyval :=
  user_info <- state_get "user_info" ;;
  repos <- state_get "repos" ;;
  if negb (truthy user_info) || negb (truthy repos) then ret PNone
  else
    let crew := mkCrew [analysis_task; roast_task] [data_analyst; comedian]
                  true in
    username <- state_index "username" ;;
    repos <- state_index "repos" ;;
    user_info <- state_index "user_info" ;;
    let date := PStr (today E) in
    roast <- crew_kickoff crew
               (PDict [ ("username", username); ("repos", repos);
                        ("user_info", user_info); ("date", date) ]) ;;
    user_info <- state_index "user_info" ;;
    ret (PTuple [user_info; roast]).

(** Modelled from the spec: the two start tasks of [Flow.kickoff] (sections
    4.2 and 5). Both begin when the run starts and a failure of one does
    not preempt the other: the second method runs also when the first has
    raised. When one of them has raised, the exception (of the first, when
    both have raised) is what the pair raises. The two methods write
    different keys; they are run here in the order of their declaration. *)
Definition gather {A B} (m1 : M A) (m2 : M B) : M (A * B) :=
  fun w =>
    let (r1, w1) := m1 w in
    let (r2, w2) := m2 w1 in
    match r1, r2 with
    | Ok a, Ok b => (Ok (a, b), w2)
    | Raise e, _ => (Raise e, w2)
    | Ok _, Raise e => (Raise e, w2)
    end.

(** Modelled from the spec: [Flow.kickoff], of the crewai package, whose
    code is not among the sources. The [inputs] are written into the state
    of the flow, the two [@start()] methods run, and the method that
    listens to [and_(start_user_info, start_repo_info)] runs once both have
    completed. A start method that returns its error dictionary has
    completed like one that returns its data: what it returns is not
    looked at, and it is the guard of the join method that tells the two
    apart. When a start method has raised, the join method does not run
    and the exception ends the kickoff, after the other start method has
    run. The kickoff returns what the last method returned. *)
Definition kickoff (inputs : list (string * pyval)) : M pyval :=
  fold_right (fun kv k => state_set (fst kv) (snd kv) ;;; k)
    (gather start_user_info start_repo_info ;;; generate_roast) inputs.

(** What [main] shows. *)
Inductive page : Type :=
| ErrorPage (message : string)
| RoastPage (user_info roast : pyval).

(** [GitHubRoasterFlow()] followed by its kickoff on the user name. *)
Definition run (username : string) : res pyval * world :=
  kickoff [("username", PStr username)] fresh.

(** [main], from the click on the button to the unpacking of the result;
    the layout of the page is left out. *)
Definition main (username : string) : res page :=
  if negb (truthy (PStr username)) then
    Ok (ErrorPage "Please enter a GitHub username")
  else
    let? result := fst (run username) in
    if negb (truthy result) then
      Ok (ErrorPage "The username provided does not exist.")
    else
      let? items := py_iter result in
      match items with
      | [user_info; roast] => Ok (RoastPage user_info roast)
      | _ => Raise (ValueError "unpack")
      end.

End Program.

(** ** Observations on the log *)

(** The calls and returns of the generation capability, in order. *)
Fixpoint gen_trace (l : list event) : list event :=
  match l with
  | [] => []
  | HttpGet _ :: rest => gen_trace rest
  | e :: rest => e :: gen_trace rest
  end.

(** How many times the generation capability was invoked. *)
Fixpoint gen_calls (l : list event) : nat :=
  match l with
  | [] => 0%nat
  | GenCall _ :: rest => S (gen_calls rest)
  | _ :: rest => gen_calls rest
  end.

Definition user_url (E : env) (username : pyval) : string :=
  "https://api.github.com/users/" ++ fmt E username.

Definition repos_url (E : env) (username : pyval) : string :=
  "https://api.github.com/users/" ++ fmt E username
  ++ "/repos?per_page=100&sort=updated".

(** A field of an upstream object is absent or null. *)
Definition absent_or_null (d : pyval) (k : string) : Prop :=
  exists items, d = PDict items /\
    (assoc k items = None \/ assoc k items = Some PNone).

(** The keys of the profile record, in the order of the literal. *)
Definition user_fields : list string :=
  [ "username"; "name"; "bio"; "followers"; "following"; "public_repos";
    "location"; "company"; "blog"; "created_at"; "avatar_url" ].

(** The text fields of the profile record with their sentinels. *)
Definition text_sentinels : list (string * string) :=
  [ ("name", "Not provided"); ("bio", "No bio provided");
    ("location", "Not provided"); ("company", "Not provided");
    ("blog", "Not provided") ].

(** What [data.get(k, default)] finds in the items of a dictionary. *)
Definition field (items : list (string * pyval)) (k : string)
    (default : pyval) : pyval :=
  match assoc k items with Some v => v | None => default end.

(** The values the start methods return when a fetch has failed. *)
Definition user_error : pyval :=
  PDict [("error", PStr "Failed to fetch user data")].

Definition repos_error : pyval :=
  PDict [("error", PStr "Failed to fetch repositories data")].

(** The text [start_repo_info] makes of the list of records. *)
Definition flattened (E : env) (repos : pyval) : res string :=
  let? items := py_iter repos in
  let? texts := mapM (render_repo E) items in
  Ok (join nlnl texts).

(** The [inputs] that [generate_roast] hands to the crew. *)
Definition crew_inputs (E : env) (username repos user_info : pyval) : pyval :=
  PDict [ ("username", username); ("repos", repos);
          ("user_info", user_info); ("date", PStr (today E)) ].

(** The world in which the start methods of a run begin. *)
Definition started (username : string) : world :=
  World (<["username" := PStr username]> ∅) [].

(** What the two fetchers return for a user name. *)
Definition profile_of (E : env) (username : string) : res pyval :=
  fst (get_github_user_info E (PStr username) fresh).

Definition repos_of (E : env) (username : string) : res pyval :=
  fst (get_github_repos E (PStr username) fresh).

(** The two start methods, up to the point where the join method begins. *)
Definition producers (E : env) : M (pyval * pyval) :=
  gather (start_user_info E) (start_repo_info E).

(** The ways a run can go: what it returns or raises, and the log it
    leaves. Both requests are in the log of every run. *)
Inductive run_outcome (E : env) (username : string) :
    res pyval -> list event -> Prop :=
| ProfileRaises e :
    profile_of E username = Raise e ->
    run_outcome E username (Raise e)
      [HttpGet (user_url E (PStr username));
       HttpGet (repos_url E (PStr username))]
| ReposRaises ui e :
    profile_of E username = Ok ui ->
    repos_of E username = Raise e ->
    run_outcome E username (Raise e)
      [HttpGet (user_url E (PStr username));
       HttpGet (repos_url E (PStr username))]
| NotFound ui rp :
    profile_of E username = Ok ui ->
    repos_of E username = Ok rp ->
    truthy ui = false \/ truthy rp = false ->
    run_outcome E username (Ok PNone)
      [HttpGet (user_url E (PStr username));
       HttpGet (repos_url E (PStr username))]
| AnalysisRaises ui rp text e :
    profile_of E username = Ok ui -> truthy ui = true ->
    repos_of E username = Ok rp -> truthy rp = true ->
    flattened E rp = Ok text ->
    generate E data_analyst analysis_task
      (crew_inputs E (PStr username) (PStr text) ui) [] = Raise e ->
    run_outcome E username (Raise e)
      [HttpGet (user_url E (PStr username));
       HttpGet (repos_url E (PStr username));
       GenCall analysis_task]
| RoastRaises ui rp text a e :
    profile_of E username = Ok ui -> truthy ui = true ->
    repos_of E username = Ok rp -> truthy rp = true ->
    flattened E rp = Ok text ->
    generate E data_analyst analysis_task
      (crew_inputs E (PStr username) (PStr text) ui) [] = Ok a ->
    generate E comedian roast_task
      (crew_inputs E (PStr username) (PStr text) ui) [a] = Raise e ->
    run_outcome E username (Raise e)
      [HttpGet (user_url E (PStr username));
       HttpGet (repos_url E (PStr username));
       GenCall analysis_task; GenRet analysis_task a; GenCall roast_task]
| Completed ui rp text a r :
    profile_of E username = Ok ui -> truthy ui = true ->
    repos_of E username = Ok rp -> truthy rp = true ->
    flattened E rp = Ok text ->
    generate E data_analyst analysis_task
      (crew_inputs E (PStr username) (PStr text) ui) [] = Ok a ->
    generate E comedian roast_task
      (crew_inputs E (PStr username) (PStr text) ui) [a] = Ok r ->
    run_outcome E username (Ok (PTuple [ui; PStr r]))
      [HttpGet (user_url E (PStr username));
       HttpGet (repos_url E (PStr username));
       GenCall analysis_task; GenRet analysis_task a;
       GenCall roast_task; GenRet roast_task r].

(** ** Sample upstream states

    Concrete environments on which the statements below are exercised. *)
Module Samples.

Definition octocat_profile : pyval :=
  PDict [ ("login", PStr "octocat"); ("name", PStr "The Octocat");
          ("company", PStr "@github"); ("bio", PNone);
          ("followers", PInt 100); ("following", PInt 9);
          ("public_repos", PInt 5);
          ("created_at", PStr "2011-01-25T18:44:36Z");
          ("avatar_url", PStr "https://avatars.githubusercontent.com/u/583231") ].

Definition spoon_knife : pyval :=
  PDict [ ("name", PStr "Spoon-Knife"); ("description", PNone);
          ("language", PStr "HTML"); ("stargazers_count", PInt 12);
          ("forks_count", PInt 140); ("open_issues_count", PInt 3);
          ("created_at", PStr "2011-01-27T19:30:43Z");
          ("updated_at", PStr "2024-05-01T10:00:00Z");
          ("topics", PList []); ("fork", PBool false) ].

Definition not_found : res response :=
  Ok (Response 404 (Ok (PDict [("message", PStr "Not Found")]))).

(** The API as seen for a few user names: [octocat] has a profile and one
    repository, [hermit] has a profile and no repository, [sparse] has a
    profile whose payload lacks most fields; nobody else exists. *)
Definition github (url : string) : res response :=
  if String.eqb url "https://api.github.com/users/octocat" then
    Ok (Response 200 (Ok octocat_profile))
  else if String.eqb url
    "https://api.github.com/users/octocat/repos?per_page=100&sort=updated" then
    Ok (Response 200 (Ok (PList [spoon_knife])))
  else if String.eqb url "https://api.github.com/users/hermit" then
    Ok (Response 200 (Ok octocat_profile))
  else if String.eqb url
    "https://api.github.com/users/hermit/repos?per_page=100&sort=updated" then
    Ok (Response 200 (Ok (PList [])))
  else if String.eqb url "https://api.github.com/users/sparse" then
    Ok (Response 200 (Ok (PDict [("login", PStr "sparse");
                                 ("followers", PNone)])))
  else not_found.

Definition plain_repr (v : pyval) : string :=
  match v with
  | PNone => "None"
  | PBool true => "True"
  | PBool false => "False"
  | PInt z => pretty z
  | PList [] => "[]"
  | _ => "..."
  end.

(** A backend that answers every call. *)
Definition answering (a : Agent) (t : Task) (inputs : pyval)
    (context : list string) : res string :=
  match context with
  | [] => Ok "analysis"
  | _ :: _ => Ok "roast"
  end.


Definition live : env := Env github answering "2025-03-01" plain_repr.

(** The record the fetcher makes of [spoon_knife]. *)
Definition spoon_knife_record : pyval :=
  PDict [ ("name", PStr "Spoon-Knife");
          ("description", PStr "No description provided");
          ("language", PStr "HTML"); ("stars", PInt 12);
          ("forks", PInt 140); ("issues", PInt 3);
          ("created_at", PStr "2011-01-27T19:30:43Z");
          ("updated_at", PStr "2024-05-01T10:00:00Z");
          ("topics", PList []); ("is_fork", PBool false) ].

(** The profile record the fetcher makes of [octocat_profile]. *)
Definition octocat_record : pyval :=
  PDict [ ("username", PStr "octocat"); ("name", PStr "The Octocat");
          ("bio", PStr "No bio provided"); ("followers", PInt 100);
          ("following", PInt 9); ("public_repos", PInt 5);
          ("location", PStr "Not provided"); ("company", PStr "@github");
          ("blog", PStr "Not provided");
          ("created_at", PStr "2011-01-25T18:44:36Z");
          ("avatar_url",
           PStr "https://avatars.githubusercontent.com/u/583231") ].

End Samples.


(** ** The page

    The rest of [main]: what it puts on the page. The calls of streamlit
    are recorded in the order they are made; streamlit itself is taken not
    to raise. *)

(** A continuation byte of UTF-8: it belongs to the character that the
    bytes before it began. *)
Definition continuation (c : ascii) : bool :=
  match c with
  | Ascii _ _ _ _ _ _ false true => true
  | _ => false
  end.

(** The first [n] characters of a string, which is held as the bytes of
    its UTF-8 encoding. *)
Fixpoint take_chars (n : nat) (s : string) : string :=
  match s with
  | EmptyString => EmptyString
  | String c rest =>
      if continuation c then String c (take_chars n rest)
      else
        match n with
        | O => EmptyString
        | S n' => String c (take_chars n' rest)
        end
  end.

(** [v[:n]]. Sequences are cut; [None], numbers and booleans cannot be
    subscripted. A dictionary refuses a slice as well (with this exception
    up to Python 3.11). *)
Definition slice_to (n : nat) (v : pyval) : res pyval :=
  match v with
  | PStr s => Ok (PStr (take_chars n s))
  | PList items => Ok (PList (firstn n items))
  | PTuple items => Ok (PTuple (firstn n items))
  | PNone | PBool _ | PInt _ | PDict _ => Raise (TypeError "slice")
  end.

Inductive widget : Type :=
| st_title (body : string)
| st_markdown (body : pyval)
| st_text_input (label placeholder : string)
| st_button (label : string)
| st_error (body : string)
| st_spinner (text : string)
| st_image (image : pyval) (width : Z)
| in_column (index : nat) (inner : widget).

(** The monad of [main]: the page so far, and exceptions. *)
Definition UI (A : Type) : Type := list widget -> res A * list widget.

Definition ui_ret {A} (a : A) : UI A := fun page => (Ok a, page).

Definition ui_bind {A B} (m : UI A) (k : A -> UI B) : UI B :=
  fun page =>
    match m page with
    | (Ok a, page') => k a page'
    | (Raise e, page') => (Raise e, page')
    end.

Definition ui_lift {A} (r : res A) : UI A := fun page => (r, page).

Definition show (w : widget) : UI unit :=
  fun page => (Ok tt, (page ++ [w])%list).

Notation "x <~ m ;; k" := (ui_bind m (fun x => k))
  (at level 100, m at next level, right associativity) : py_scope.
Notation "m ~~> k" := (ui_bind m (fun _ => k))
  (at level 100, right associativity) : py_scope.

Definition intro : string :=
"
    Enter a GitHub username below to get a humorous, AI-generated roast of their profile.
    The roast is based on their public repositories, contribution patterns, and coding style.
    ".

(** Newline and the indentation of the lines of the f-string of the
    profile. *)
Definition profile_line : string :=
"
                    ".

Section Page.

Variable E : env.

(** The f-string of the second column. *)
Definition profile_markdown (user_info : pyval) : res string :=
  let? name := subscript user_info "name" in
  let? username := subscript user_info "username" in
  let? bio := subscript user_info "bio" in
  let? location := subscript user_info "location" in
  let? public_repos := subscript user_info "public_repos" in
  let? created_at := subscript user_info "created_at" in
  let? since := slice_to 10 created_at in
  Ok (profile_line ++ "### " ++ fmt E name
        ++ " (@" ++ fmt E username ++ ")"
      ++ profile_line ++ "- **Bio:** " ++ fmt E bio
      ++ profile_line ++ "- **Location:** " ++ fmt E location
      ++ profile_line ++ "- **Public Repos:** " ++ fmt E public_repos
      ++ profile_line ++ "- **GitHub member since:** " ++ fmt E since
      ++ profile_line).

(** The display of a result that has passed the test of [main]. *)
Definition show_result (result : pyval) : UI unit :=
  items <~ ui_lift (py_iter result) ;;
  match items with
  | [user_info; roast] =>
      show (st_markdown (PStr "## GitHub Profile")) ~~>
      avatar_url <~ ui_lift (subscript user_info "avatar_url") ;;
      show (in_column 1 (st_image avatar_url 200)) ~~>
      text <~ ui_lift (profile_markdown user_info) ;;
      show (in_column 2 (st_markdown (PStr text))) ~~>
      show (st_markdown (PStr "## The Roast 🔥")) ~~>
      show (st_markdown roast)
  | _ => ui_lift (Raise (ValueError "unpack"))
  end.

(** [main], whole: [username] is what the text input returns and
    [clicked] what the button returns. *)
Definition main_ui (username : string) (clicked : bool) : UI unit :=
  show (st_title "🔥 GitHub Profile Roaster 🔥") ~~>
  show (st_markdown (PStr intro)) ~~>
  show (st_text_input "GitHub Username to Roast" "octocat") ~~>
  show (st_button "Roast This Profile! 🔥") ~~>
  if clicked then
    if negb (truthy (PStr username)) then
      show (st_error "Please enter a GitHub username")
    else
      show (st_spinner
              ("Analyzing " ++ username
               ++ "'s GitHub profile... This might take a minute or two."))
      ~~>
      result <~ ui_lift (fst (run E username)) ;;
      if negb (truthy result) then
        show (st_error "The username provided does not exist.")
      else show_result result
  else ui_ret tt.

End Page.

(** What [main] shows before it looks at the button. *)
Definition page_head : list widget :=
  [ st_title "🔥 GitHub Profile Roaster 🔥";
    st_markdown (PStr intro);
    st_text_input "GitHub Username to Roast" "octocat";
    st_button "Roast This Profile! 🔥" ].

(** The spinner of a user name. *)
Definition spinner_of (username : string) : widget :=
  st_spinner
    ("Analyzing " ++ username
     ++ "'s GitHub profile... This might take a minute or two.").

(** The page [main] leaves when it is run on an empty page. *)
Definition page_of (E : env) (username : string) (clicked : bool) :
    res unit * list widget :=
  main_ui E username clicked [].

(** The requests of a log, in order. *)
Fixpoint http_requests (l : list event) : list string :=
  match l with
  | [] => []
  | HttpGet url :: rest => url :: http_requests rest
  | _ :: rest => http_requests rest
  end.

(** More upstream states: payloads that are sparse or have the wrong
    shape, and a connection that fails. *)
Module Corners.

Definition dateless_items : list (string * pyval) :=
  [ ("login", PStr "dateless"); ("name", PStr "No Date");
    ("avatar_url", PStr "https://avatars.githubusercontent.com/u/1") ].

Definition dateless_profile : pyval := PDict dateless_items.

Definition github (url : string) : res response :=
  if String.eqb url "https://api.github.com/users/dateless" then
    Ok (Response 200 (Ok dateless_profile))
  else if String.eqb url
    "https://api.github.com/users/dateless/repos?per_page=100&sort=updated"
  then Ok (Response 200 (Ok (PList [Samples.spoon_knife])))
  else if String.eqb url "https://api.github.com/users/odd" then
    Ok (Response 200 (Ok (PList [])))
  else if String.eqb url
    "https://api.github.com/users/odd/repos?per_page=100&sort=updated"
  then Ok (Response 200 (Ok (PList [Samples.spoon_knife; PInt 7])))
  else if String.eqb url "https://api.github.com/users/down" then
    Raise (RequestException "timed out")
  else Samples.not_found.

Definition live : env :=
  Env github Samples.answering "2025-03-01" Samples.plain_repr.

End Corners.

(** An upstream state in which nobody exists and the requests for
    repositories time out. *)
Module Outage.

Definition github (url : string) : res response :=
  if String.eqb url
    "https://api.github.com/users/ghost/repos?per_page=100&sort=updated"
  then Raise (RequestException "timed out")
  else Samples.not_found.

Definition live : env :=
  Env github Samples.answering "2025-03-01" Samples.plain_repr.

End Outage.

(** * Properties *)

(** ** The monad *)

Lemma bind_raise {A B} (m : M A) (k : A -> M B) w e w' :
  m w = (Raise e, w') -> bind m k w = (Raise e, w').
Proof. unfold bind. by intros ->. Qed.

(** When the first of two gathered computations returns, the pair goes on
    as the two computations one after the other do. *)
Lemma gather_seq {A B C} (m1 : M A) (m2 : M B) (k : M C) w :
  (exists a, fst (m1 w) = Ok a) ->
  bind (gather m1 m2) (fun _ => k) w =
  bind m1 (fun _ => bind m2 (fun _ => k)) w.
Proof.
  intros [a Ha]. unfold bind, gather.
  destruct (m1 w) as [[a'|e] w1]; [|done].
  by destruct (m2 w1) as [[b|e] w2].
Qed.

Section Facts.

Variable E : env.

(** ** The fetchers *)

(** A fetcher adds one request to the log and leaves the state of the flow
    alone; what it returns does not depend on the world it is called in. *)
Lemma get_github_user_info_frame username w :
  get_github_user_info E username w =
  (fst (get_github_user_info E username fresh),
   World (state w) (log w ++ [HttpGet (user_url E username)])).
Proof.
  unfold get_github_user_info, http, bind, emit, lift, ret, user_url.
  cbn [fst snd state log].
  destruct (requests_get E _) as [r|e]; [|done].
  destruct (negb _); [done|].
  by destruct (json r).
Qed.

Lemma get_github_repos_frame username w :
  get_github_repos E username w =
  (fst (get_github_repos E username fresh),
   World (state w) (log w ++ [HttpGet (repos_url E username)])).
Proof.
  unfold get_github_repos, http, bind, emit, lift, ret, repos_url.
  cbn [fst snd state log].
  destruct (requests_get E _) as [r|e]; [|done].
  destruct (negb _); [done|].
  by destruct (json r).
Qed.

Lemma user_record_dict items :
  user_record (PDict items) =
  Ok (PDict
    [ ("username", field items "login" PNone);
      ("name", py_or (field items "name" PNone) (PStr "Not provided"));
      ("bio", py_or (field items "bio" PNone) (PStr "No bio provided"));
      ("followers", field items "followers" (PInt 0));
      ("following", field items "following" (PInt 0));
      ("public_repos", field items "public_repos" (PInt 0));
      ("location", py_or (field items "location" PNone) (PStr "Not provided"));
      ("company", py_or (field items "company" PNone) (PStr "Not provided"));
      ("blog", py_or (field items "blog" PNone) (PStr "Not provided"));
      ("created_at", field items "created_at" PNone);
      ("avatar_url", field items "avatar_url" PNone) ]).
Proof. reflexivity. Qed.

Lemma user_record_inv data r :
  user_record data = Ok r -> exists items, data = PDict items.
Proof. destruct data; try discriminate. eauto. Qed.

Lemma repo_record_dict items :
  repo_record (PDict items) =
  Ok (PDict
    [ ("name", field items "name" PNone);
      ("description",
        py_or (field items "description" PNone)
              (PStr "No description provided"));
      ("language",
        py_or (field items "language" PNone) (PStr "Not specified"));
      ("stars", field items "stargazers_count" (PInt 0));
      ("forks", field items "forks_count" (PInt 0));
      ("issues", field items "open_issues_count" (PInt 0));
      ("created_at", field items "created_at" PNone);
      ("updated_at", field items "updated_at" PNone);
      ("topics", field items "topics" (PList []));
      ("is_fork", field items "fork" (PBool false)) ]).
Proof. reflexivity. Qed.

Lemma repo_record_inv repo r :
  repo_record repo = Ok r -> exists items, repo = PDict items.
Proof. destruct repo; try discriminate. eauto. Qed.

Lemma py_or_truthy a s : s <> "" -> truthy (py_or a (PStr s)) = true.
Proof.
  intros Hs. unfold py_or. destruct (truthy a) eqn:Ha; [done|].
  by destruct s.
Qed.

Lemma py_or_falsy a b : truthy a = false -> py_or a b = b.
Proof. unfold py_or. by intros ->. Qed.

Lemma mapM_Forall2 {A B} (f : A -> res B) l bs :
  mapM f l = Ok bs -> Forall2 (fun a b => f a = Ok b) l bs.
Proof.
  revert bs. induction l as [|a l IH]; intros bs; simpl.
  - intros [= <-]. constructor.
  - destruct (f a) as [b|] eqn:Hb; [|done].
    destruct (mapM f l) as [bs'|]; [|done].
    intros [= <-]. constructor; auto.
Qed.

(** What the fetchers return. *)
Lemma get_github_user_info_value username w v :
  fst (get_github_user_info E username w) = Ok v ->
  v = PNone \/ exists data, user_record data = Ok v.
Proof.
  unfold get_github_user_info, http, bind, emit, lift, ret.
  cbn [fst snd].
  destruct (requests_get E _) as [r|e]; [|done].
  destruct (negb _); [intros [= <-]; by left|].
  destruct (json r) as [data|]; [|done].
  cbn [fst]. intros Hv. right. by exists data.
Qed.

Lemma get_github_repos_value username w v :
  fst (get_github_repos E username w) = Ok v ->
  v = PNone \/
  exists payload items records,
    requests_get E (repos_url E username) = Ok (Response 200 (Ok payload)) /\
    py_iter payload = Ok items /\
    mapM repo_record items = Ok records /\ v = PList records.
Proof.
  unfold get_github_repos, http, bind, emit, lift, ret, repos_url.
  cbn [fst snd].
  destruct (requests_get E _) as [[code body]|e]; [|done].
  cbn [status_code json].
  destruct (code =? 200) eqn:Hcode; cbn [negb]; [|intros [= <-]; by left].
  apply Z.eqb_eq in Hcode as ->.
  destruct body as [payload|]; [|done]. cbn [fst].
  destruct (py_iter payload) as [items|] eqn:Hit; [|done]. cbn [rbind].
  destruct (mapM repo_record items) as [records|] eqn:Hrec; [|done].
  cbn [rbind]. intros [= <-]. right. by exists payload, items, records.
Qed.

(** A record built by [get_github_repos] renders, and to a text that is
    not empty. *)
Lemma render_repo_record repo r :
  repo_record repo = Ok r -> exists t, render_repo E r = Ok t /\ t <> "".
Proof.
  intros Hr. destruct (repo_record_inv _ _ Hr) as [items ->].
  rewrite repo_record_dict in Hr. injection Hr as <-.
  eexists. split; [reflexivity|]. discriminate.
Qed.

Lemma join_nonempty sep t ts : t <> "" -> join sep (t :: ts) <> "".
Proof.
  intros Ht. destruct t as [|c t]; [done|].
  destruct ts; simpl; discriminate.
Qed.

Lemma flattened_records items records :
  mapM repo_record items = Ok records -> records <> [] ->
  exists text, flattened E (PList records) = Ok text /\ text <> "".
Proof.
  intros Hrec Hne. apply mapM_Forall2 in Hrec.
  unfold flattened. cbn [py_iter rbind].
  assert (exists texts, mapM (render_repo E) records = Ok texts /\
            Forall (fun t => t <> "") texts /\
            length texts = length records) as (texts & -> & Hts & Hlen).
  { clear Hne. induction Hrec as [|repo r items records Hr _ IH]; simpl.
    - by exists [].
    - destruct (render_repo_record _ _ Hr) as (t & -> & Ht).
      destruct IH as (texts & -> & Hts & Hlen).
      exists (t :: texts). repeat split; [by constructor|].
      simpl. by rewrite Hlen. }
  cbn [rbind]. eexists. split; [reflexivity|].
  destruct texts as [|t texts]; [by destruct records|].
  apply join_nonempty. by inversion Hts.
Qed.

(** ** The methods of the flow *)

Lemma start_user_info_spec w u :
  state w !! "username" = Some u ->
  start_user_info E w =
  let w1 := World (state w) (log w ++ [HttpGet (user_url E u)]) in
  match fst (get_github_user_info E u fresh) with
  | Raise e => (Raise e, w1)
  | Ok v =>
      if truthy v then (Ok v, World (<["user_info" := v]> (state w)) (log w1))
      else (Ok user_error, w1)
  end.
Proof.
  intros Hu. unfold start_user_info, bind, state_index. rewrite Hu.
  rewrite get_github_user_info_frame.
  destruct (fst (get_github_user_info E u fresh)) as [v|e]; [|done].
  cbn zeta. by destruct (truthy v).
Qed.

Lemma start_repo_info_spec w u :
  state w !! "username" = Some u ->
  start_repo_info E w =
  let w1 := World (state w) (log w ++ [HttpGet (repos_url E u)]) in
  match fst (get_github_repos E u fresh) with
  | Raise e => (Raise e, w1)
  | Ok v =>
      if truthy v then
        match flattened E v with
        | Ok text =>
            (Ok (PStr text),
             World (<["repos" := PStr text]> (state w)) (log w1))
        | Raise e => (Raise e, w1)
        end
      else (Ok repos_error, w1)
  end.
Proof.
  intros Hu. unfold start_repo_info, bind, state_index. rewrite Hu.
  rewrite get_github_repos_frame.
  destruct (fst (get_github_repos E u fresh)) as [v|e]; [|done].
  cbn zeta. destruct (truthy v); [|done].
  unfold flattened, lift, rbind.
  destruct (py_iter v) as [items|]; [|done].
  by destruct (mapM (render_repo E) items).
Qed.

(** The guard of [generate_roast]: with a key absent, or bound to a value
    that is not true, the method returns [None] and touches nothing. *)
Lemma generate_roast_guard w :
  truthy (default PNone (state w !! "user_info")) = false \/
  truthy (default PNone (state w !! "repos")) = false ->
  generate_roast E w = (Ok PNone, w).
Proof.
  intros H. unfold generate_roast, bind, state_get, ret.
  destruct (state w !! "user_info") as [ui|];
    destruct (state w !! "repos") as [rp|];
    cbv [default from_option id] in H; cbn beta iota; cbn [truthy negb orb];
    destruct H as [H|H]; try done; rewrite ?H; try done.
  all: by destruct (truthy ui).
Qed.

Lemma generate_roast_joined w u ui rp :
  state w !! "username" = Some u ->
  state w !! "user_info" = Some ui ->
  state w !! "repos" = Some rp ->
  truthy ui = true -> truthy rp = true ->
  generate_roast E w =
  let inputs := crew_inputs E u rp ui in
  match generate E data_analyst analysis_task inputs [] with
  | Raise e =>
      (Raise e, World (state w) (log w ++ [GenCall analysis_task]))
  | Ok a =>
      match generate E comedian roast_task inputs [a] with
      | Raise e =>
          (Raise e,
           World (state w)
             (log w ++ [GenCall analysis_task; GenRet analysis_task a;
                        GenCall roast_task]))
      | Ok r =>
          (Ok (PTuple [ui; PStr r]),
           World (state w)
             (log w ++ [GenCall analysis_task; GenRet analysis_task a;
                        GenCall roast_task; GenRet roast_task r]))
      end
  end.
Proof.
  intros Hu Hui Hrp Tui Trp.
  unfold generate_roast, bind, state_get, state_index, ret, crew_kickoff.
  rewrite Hui, Hrp. cbn beta iota. rewrite Tui, Trp.
  cbn [negb orb]. cbn beta iota. rewrite Hu, Hrp, Hui.
  unfold crew_inputs. cbn [run_tasks tasks]. unfold bind, emit, lift, ret.
  cbn [state log agent analysis_task roast_task app].
  destruct (generate E data_analyst analysis_task _ []) as [a|e]; [|done].
  destruct (generate E comedian roast_task _ [a]) as [r|e].
  - cbn [state]. rewrite Hui. by rewrite <- !(assoc_L (++)%list).
  - by rewrite <- !(assoc_L (++)%list).
Qed.

(** ** The run *)

Lemma run_started username : run E username = kickoff E [] (started username).
Proof. reflexivity. Qed.

Lemma flattened_repos username w v :
  fst (get_github_repos E username w) = Ok v -> truthy v = true ->
  exists text, flattened E v = Ok text /\ text <> "".
Proof.
  intros Hv Ht.
  destruct (get_github_repos_value _ _ _ Hv)
    as [->|(payload & items & records & _ & _ & Hrec & ->)]; [done|].
  eapply flattened_records; [done|]. by destruct records.
Qed.

Section Body.

Variables (w : world) (u : pyval).
Hypothesis Hu : state w !! "username" = Some u.

Let after_both : list event :=
  (log w ++ [HttpGet (user_url E u); HttpGet (repos_url E u)])%list.

Lemma start_user_info_returns ui :
  fst (get_github_user_info E u fresh) = Ok ui ->
  exists a, fst (start_user_info E w) = Ok a.
Proof.
  intros HU. rewrite (start_user_info_spec _ u) by done. rewrite HU.
  cbn zeta. destruct (truthy ui); by eexists.
Qed.

(** [start_repo_info] adds its request to the log, whatever comes of it. *)
Lemma start_repo_info_log w0 :
  state w0 !! "username" = Some u ->
  log (snd (start_repo_info E w0)) =
  (log w0 ++ [HttpGet (repos_url E u)])%list.
Proof.
  intros Hu0. rewrite (start_repo_info_spec _ u) by done. cbn zeta.
  destruct (fst (get_github_repos E u fresh)) as [v|e]; [|done].
  destruct (truthy v); [|done].
  by destruct (flattened E v).
Qed.

(** The profile fetch raises: the other start method runs all the same,
    and the exception ends the kickoff. *)
Lemma kickoff_user_raises e :
  fst (get_github_user_info E u fresh) = Raise e ->
  exists st, kickoff E [] w = (Raise e, World st after_both).
Proof.
  intros HU. unfold kickoff. cbn [fold_right]. unfold bind, gather.
  rewrite (start_user_info_spec _ u) by done. rewrite HU. cbn zeta.
  cbn beta iota.
  set (w1 := World (state w) (log w ++ [HttpGet (user_url E u)])%list).
  pose proof (start_repo_info_log w1 Hu) as Hlog.
  destruct (start_repo_info E w1) as [r2 [st2 l2]].
  cbn [snd log] in Hlog. subst l2 after_both. subst w1. cbn [log].
  exists st2. by rewrite <- (assoc_L (++)%list).
Qed.

Lemma kickoff_repos_raises ui e :
  fst (get_github_user_info E u fresh) = Ok ui ->
  fst (get_github_repos E u fresh) = Raise e ->
  exists st, kickoff E [] w = (Raise e, World st after_both).
Proof.
  intros HU HR. unfold kickoff. cbn [fold_right].
  rewrite gather_seq by by eapply start_user_info_returns.
  unfold bind at 1. rewrite (start_user_info_spec _ u) by done. rewrite HU.
  cbn zeta. subst after_both.
  destruct (truthy ui); eexists.
  - erewrite bind_raise; [reflexivity|].
    rewrite (start_repo_info_spec _ u);
      [|cbn [state]; by rewrite lookup_insert_ne].
    rewrite HR. cbn [state log]. by rewrite <- (assoc_L (++)%list).
  - erewrite bind_raise; [reflexivity|].
    rewrite (start_repo_info_spec _ u) by done.
    rewrite HR. cbn [state log]. by rewrite <- (assoc_L (++)%list).
Qed.

(** Both fetchers return and one of the values fails the test of the start
    method: the join method finds its guard closed. *)
Lemma kickoff_not_found ui rp :
  state w !! "user_info" = None -> state w !! "repos" = None ->
  fst (get_github_user_info E u fresh) = Ok ui ->
  fst (get_github_repos E u fresh) = Ok rp ->
  truthy ui = false \/ truthy rp = false ->
  exists st, kickoff E [] w = (Ok PNone, World st after_both).
Proof.
  intros Hnu Hnr HU HR Hf. unfold kickoff. cbn [fold_right].
  rewrite gather_seq by by eapply start_user_info_returns.
  unfold bind at 1. rewrite (start_user_info_spec _ u) by done. rewrite HU.
  cbn zeta. subst after_both. destruct (truthy ui) eqn:Tui.
  - destruct Hf as [|Trp]; [done|].
    unfold bind at 1. rewrite (start_repo_info_spec _ u);
      [|cbn [state]; by rewrite lookup_insert_ne].
    rewrite HR. cbn zeta. rewrite Trp.
    rewrite generate_roast_guard.
    + eexists. cbn [state log]. by rewrite <- (assoc_L (++)%list).
    + right. cbn [state]. rewrite lookup_insert_ne by done. by rewrite Hnr.
  - unfold bind at 1. rewrite (start_repo_info_spec _ u) by done.
    rewrite HR. cbn zeta. destruct (truthy rp) eqn:Trp.
    + destruct (flattened_repos _ _ _ HR Trp) as (text & -> & _).
      rewrite generate_roast_guard.
      * eexists. cbn [state log]. by rewrite <- (assoc_L (++)%list).
      * left. cbn [state]. rewrite lookup_insert_ne by done. by rewrite Hnu.
    + rewrite generate_roast_guard.
      * eexists. cbn [state log]. by rewrite <- (assoc_L (++)%list).
      * left. cbn [state]. by rewrite Hnu.
Qed.

(** Both fetchers return values that pass: the join method runs in a state
    that has the two new keys on top of what it had. *)
Lemma kickoff_joined ui rp :
  fst (get_github_user_info E u fresh) = Ok ui ->
  fst (get_github_repos E u fresh) = Ok rp ->
  truthy ui = true -> truthy rp = true ->
  exists text,
    flattened E rp = Ok text /\ text <> "" /\
    kickoff E [] w =
    generate_roast E
      (World (<["repos" := PStr text]> (<["user_info" := ui]> (state w)))
         after_both).
Proof.
  intros HU HR Tui Trp.
  destruct (flattened_repos _ _ _ HR Trp) as (text & Htext & Hne).
  exists text. repeat split; [done..|].
  unfold kickoff. cbn [fold_right].
  rewrite gather_seq by by eapply start_user_info_returns.
  unfold bind at 1. rewrite (start_user_info_spec _ u) by done. rewrite HU.
  cbn zeta. rewrite Tui.
  unfold bind at 1. rewrite (start_repo_info_spec _ u);
    [|cbn [state]; by rewrite lookup_insert_ne].
  rewrite HR. cbn zeta. rewrite Trp, Htext.
  cbn [state log]. subst after_both. by rewrite <- (assoc_L (++)%list).
Qed.

End Body.

Lemma started_username username :
  state (started username) !! "username" = Some (PStr username).
Proof. apply lookup_insert_eq. Qed.

Lemma started_no_user_info username :
  state (started username) !! "user_info" = None.
Proof. unfold started. cbn [state]. by rewrite lookup_insert_ne. Qed.

Lemma started_no_repos username :
  state (started username) !! "repos" = None.
Proof. unfold started. cbn [state]. by rewrite lookup_insert_ne. Qed.

(** Every run goes one of the six ways of [run_outcome]. *)
Lemma run_cases username :
  run_outcome E username (fst (run E username)) (log (snd (run E username))).
Proof.
  rewrite run_started.
  pose proof (started_username username) as Hu.
  destruct (profile_of E username) as [ui|e] eqn:HU.
  2: { destruct (kickoff_user_raises _ _ Hu e HU) as [st ->].
       by constructor. }
  destruct (repos_of E username) as [rp|e] eqn:HR.
  2: { destruct (kickoff_repos_raises _ _ Hu ui e HU HR) as [st ->].
       by econstructor. }
  destruct (truthy ui) eqn:Tui; last first.
  { destruct (kickoff_not_found _ _ Hu ui rp) as [st ->];
      auto using started_no_user_info, started_no_repos.
    econstructor; eauto. }
  destruct (truthy rp) eqn:Trp; last first.
  { destruct (kickoff_not_found _ _ Hu ui rp) as [st ->];
      auto using started_no_user_info, started_no_repos.
    econstructor; eauto. }
  destruct (kickoff_joined _ _ Hu ui rp HU HR Tui Trp)
    as (text & Htext & Hne & ->).
  assert (truthy (PStr text) = true) as Ttext by by destruct text.
  rewrite (generate_roast_joined _ (PStr username) ui (PStr text));
    cbn [state]; [|by simplify_map_eq..|done|done].
  cbn zeta.
  destruct (generate E data_analyst analysis_task _ []) as [a|e] eqn:Ha;
    [|by econstructor].
  destruct (generate E comedian roast_task _ [a]) as [r|e] eqn:Hr;
    by econstructor.
Qed.

End Facts.

(** * The claims *)

(** Two equations on what the same call returned are merged into one, and
    the case is closed when they contradict each other. *)
Ltac same_call :=
  repeat match goal with
  | H1 : ?x = Ok ?a, H2 : ?x = Ok ?b |- _ =>
      rewrite H1 in H2; injection H2 as <-
  | H1 : ?x = Raise ?a, H2 : ?x = Raise ?b |- _ =>
      rewrite H1 in H2; injection H2 as <-
  | H1 : ?x = Ok _, H2 : ?x = Raise _ |- _ =>
      rewrite H1 in H2; discriminate H2
  | H1 : ?x = true, H2 : ?x = false |- _ =>
      rewrite H1 in H2; discriminate H2
  end.

(** ** Not found *)




(** ** The two generation calls *)

(** C2. A run that succeeds (it returns a value that passes the test of
    [main]) has invoked the generation capability exactly twice: first for
    the analysis task, then for the roast task. In the log the second call
    comes after the return of the first, and it has received the output of
    the first as its context. *)
Theorem successful_run_two_calls E username v :
  fst (run E username) = Ok v -> truthy v = true ->
  exists ui text a r,
    let inputs := crew_inputs E (PStr username) (PStr text) ui in
    v = PTuple [ui; PStr r] /\
    gen_trace (log (snd (run E username))) =
      [GenCall analysis_task; GenRet analysis_task a;
       GenCall roast_task; GenRet roast_task r] /\
    gen_calls (log (snd (run E username))) = 2%nat /\
    generate E data_analyst analysis_task inputs [] = Ok a /\
    generate E comedian roast_task inputs [a] = Ok r.
Proof.
  intros Hv Tv.
  destruct (run_cases E username) as [| | | | |ui rp text a r];
    try discriminate Hv.
  - injection Hv as <-. discriminate Tv.
  - injection Hv as <-. by exists ui, text, a, r.
Qed.

Lemma successful_run_two_calls_witness :
  exists ui text a r,
    let inputs := crew_inputs Samples.live (PStr "octocat") (PStr text) ui in
    PTuple [Samples.octocat_record; PStr "roast"] = PTuple [ui; PStr r] /\
    gen_trace (log (snd (run Samples.live "octocat"))) =
      [GenCall analysis_task; GenRet analysis_task a;
       GenCall roast_task; GenRet roast_task r] /\
    gen_calls (log (snd (run Samples.live "octocat"))) = 2%nat /\
    generate Samples.live data_analyst analysis_task inputs [] = Ok a /\
    generate Samples.live comedian roast_task inputs [a] = Ok r.
Proof.
  apply (successful_run_two_calls Samples.live "octocat").
  - reflexivity.
  - reflexivity.
Defined.

(** ** Normalization of the records *)

Lemma profile_of_payload E username items :
  requests_get E (user_url E (PStr username)) =
    Ok (Response 200 (Ok (PDict items))) ->
  profile_of E username = user_record (PDict items).
Proof.
  intros Hget. unfold profile_of, get_github_user_info, http, bind, emit,
    lift, ret. cbn [fst snd]. unfold user_url in Hget. by rewrite Hget.
Qed.

Lemma absent_or_null_field items k :
  absent_or_null (PDict items) k -> field items k PNone = PNone.
Proof.
  intros (items' & [= <-] & [H|H]); unfold field; by rewrite H.
Qed.

(** C3, as stated, does not hold: a payload that lacks [created_at] and
    [avatar_url], and whose [followers] is null, gives a record in which
    these three fields are [None]. *)
Lemma profile_fields_can_be_None :
  exists r, profile_of Samples.live "sparse" = Ok r /\
    subscript r "followers" = Ok PNone /\
    subscript r "created_at" = Ok PNone /\
    subscript r "avatar_url" = Ok PNone.
Proof. eexists. by repeat split. Qed.

(** C3, amended. For a payload that is a JSON object, the record has its
    eleven keys, in the order of the literal. The five text fields are
    never [None] nor empty: a value that is absent or null (or fails the
    truth test in another way) is replaced by the sentinel of the field,
    and any other value is kept. The three counts are 0 when their key is
    absent. The login, the creation date, the avatar, and a count that is
    present, are passed on as they are; when none of these six is null
    (and the first three are present), no field of the record is [None]. *)
Theorem profile_normalization E username items :
  requests_get E (user_url E (PStr username)) =
    Ok (Response 200 (Ok (PDict items))) ->
  exists fields,
    profile_of E username = Ok (PDict fields) /\
    map fst fields = user_fields /\
    (forall k s, In (k, s) text_sentinels ->
       exists v, assoc k fields = Some v /\ truthy v = true /\
         (absent_or_null (PDict items) k -> v = PStr s) /\
         (truthy (field items k PNone) = false -> v = PStr s) /\
         (truthy (field items k PNone) = true -> v = field items k PNone)) /\
    (forall k, In k ["followers"; "following"; "public_repos"] ->
       assoc k fields = Some (field items k (PInt 0))) /\
    assoc "username" fields = Some (field items "login" PNone) /\
    assoc "created_at" fields = Some (field items "created_at" PNone) /\
    assoc "avatar_url" fields = Some (field items "avatar_url" PNone) /\
    ((forall k, In k ["login"; "created_at"; "avatar_url"] ->
        field items k PNone <> PNone) ->
     (forall k, In k ["followers"; "following"; "public_repos"] ->
        field items k (PInt 0) <> PNone) ->
     Forall (fun kv => snd kv <> PNone) fields).
Proof.
  intros Hget. rewrite (profile_of_payload _ _ _ Hget), user_record_dict.
  eexists. split; [reflexivity|]. split; [reflexivity|].
  split; [|split; [|repeat split]].
  3: { intros Hid Hcount.
       assert (forall a s, s <> "" -> py_or a (PStr s) <> PNone) as Hor.
       { intros a s Hs Heq. pose proof (py_or_truthy a s Hs) as Ht.
         by rewrite Heq in Ht. }
       repeat constructor; cbn [snd];
         try (apply Hor; discriminate);
         try (apply Hid; cbn; tauto); apply Hcount; cbn; tauto. }
  - intros k s Hks. cbn [In text_sentinels] in Hks.
    assert (forall a, a = py_or (field items k PNone) (PStr s) -> s <> "" ->
      truthy a = true /\
      (absent_or_null (PDict items) k -> a = PStr s) /\
      (truthy (field items k PNone) = false -> a = PStr s) /\
      (truthy (field items k PNone) = true -> a = field items k PNone))
      as Hor.
    { intros a -> Hs. split; [by apply py_or_truthy|].
      split; [|split].
      - intros Habs. by rewrite (absent_or_null_field _ _ Habs).
      - apply py_or_falsy.
      - unfold py_or. by intros ->. }
    destruct Hks as [[= <- <-]|[[= <- <-]|[[= <- <-]|[[= <- <-]|[[= <- <-]|[]]]]]];
      (eexists; split; [reflexivity|]; by apply Hor).
  - intros k Hk. cbn [In] in Hk.
    by destruct Hk as [<-|[<-|[<-|[]]]].
Qed.

Lemma profile_normalization_witness :
  exists fields,
    profile_of Samples.live "sparse" = Ok (PDict fields) /\
    map fst fields = user_fields /\
    assoc "name" fields = Some (PStr "Not provided") /\
    assoc "bio" fields = Some (PStr "No bio provided") /\
    assoc "following" fields = Some (PInt 0) /\
    assoc "username" fields = Some (PStr "sparse").
Proof.
  destruct (profile_normalization Samples.live "sparse"
              [("login", PStr "sparse"); ("followers", PNone)])
    as (fields & Hp & Hkeys & Htext & Hcount & Hlogin & _ & _ & _).
  - reflexivity.
  - exists fields. split; [exact Hp|]. split; [exact Hkeys|].
    destruct (Htext "name" "Not provided") as (v1 & H1 & _ & _ & F1 & _).
    { cbn. tauto. }
    destruct (Htext "bio" "No bio provided") as (v2 & H2 & _ & _ & F2 & _).
    { cbn. tauto. }
    rewrite H1, H2, (F1 eq_refl), (F2 eq_refl).
    repeat split; [|exact Hlogin].
    apply (Hcount "following"). cbn. tauto.
Defined.

(** C9. In every record that a successful call of [get_github_repos]
    returns, the description is "No description provided" when the
    upstream description is absent or null, and the language is
    "Not specified" when the upstream language is absent or null. *)
Theorem repos_sentinels E username records :
  repos_of E username = Ok (PList records) ->
  exists payload items,
    requests_get E (repos_url E (PStr username)) =
      Ok (Response 200 (Ok payload)) /\
    py_iter payload = Ok items /\
    Forall2 (fun repo r =>
      (absent_or_null repo "description" ->
       subscript r "description" = Ok (PStr "No description provided")) /\
      (absent_or_null repo "language" ->
       subscript r "language" = Ok (PStr "Not specified")))
      items records.
Proof.
  intros HR.
  destruct (get_github_repos_value _ _ _ _ HR)
    as [|(payload & items & records' & Hget & Hit & Hrec & [= <-])];
    [done|].
  exists payload, items. repeat split; [done..|].
  apply mapM_Forall2 in Hrec.
  eapply Forall2_impl; [exact Hrec|].
  intros repo r Hr. cbv beta in Hr.
  destruct (repo_record_inv _ _ Hr) as [fields ->].
  rewrite repo_record_dict in Hr. injection Hr as <-.
  split; intros Habs; rewrite <- (absent_or_null_field _ _ Habs) at 1;
    by rewrite (absent_or_null_field _ _ Habs).
Qed.

Lemma repos_sentinels_witness :
  exists payload items,
    requests_get Samples.live (repos_url Samples.live (PStr "octocat")) =
      Ok (Response 200 (Ok payload)) /\
    py_iter payload = Ok items /\
    Forall2 (fun repo r =>
      (absent_or_null repo "description" ->
       subscript r "description" = Ok (PStr "No description provided")) /\
      (absent_or_null repo "language" ->
       subscript r "language" = Ok (PStr "Not specified")))
      items [Samples.spoon_knife_record].
Proof.
  apply (repos_sentinels Samples.live "octocat"). reflexivity.
Defined.

(** C10. Each fetcher returns the same value when it is called a second
    time with the same user name against the same upstream answers: what
    it returns does not depend on the world it is called in, and it leaves
    the state of the flow as it was. *)
Theorem fetchers_idempotent E username w :
  let user1 := get_github_user_info E username w in
  let user2 := get_github_user_info E username (snd user1) in
  let repos1 := get_github_repos E username w in
  let repos2 := get_github_repos E username (snd repos1) in
  fst user2 = fst user1 /\ state (snd user2) = state w /\
  fst repos2 = fst repos1 /\ state (snd repos2) = state w.
Proof.
  cbv zeta.
  rewrite (get_github_user_info_frame E username (snd _)).
  rewrite (get_github_repos_frame E username (snd _)).
  rewrite (get_github_user_info_frame E username w).
  rewrite (get_github_repos_frame E username w).
  by cbn [fst snd state].
Qed.

(** ** Failures *)






(** C6. When [generate_roast] starts in a state that lacks the key
    [user_info] or the key [repos], it returns [None]: it does not raise,
    it changes nothing, and in particular it makes no generation call. *)
Theorem generate_roast_missing_key E w :
  state w !! "user_info" = None \/ state w !! "repos" = None ->
  generate_roast E w = (Ok PNone, w) /\
  gen_calls (log (snd (generate_roast E w))) = gen_calls (log w).
Proof.
  intros Hmiss.
  assert (generate_roast E w = (Ok PNone, w)) as ->; [|done].
  apply generate_roast_guard. by destruct Hmiss as [-> | ->]; [left|right].
Qed.

Lemma generate_roast_missing_key_witness :
  generate_roast Samples.live (started "octocat") =
    (Ok PNone, started "octocat") /\
  gen_calls (log (snd (generate_roast Samples.live (started "octocat")))) =
    gen_calls (log (started "octocat")).
Proof.
  apply (generate_roast_missing_key Samples.live (started "octocat")).
  left. reflexivity.
Defined.

(** ** The state at the join *)

(** C7, as stated, does not hold: when both producers have succeeded the
    state holds more than the two keys, for the user name that was given
    to the kickoff is in it next to the profile record and the text. *)
Lemma username_key_at_join :
  let w := snd (producers Samples.live (started "octocat")) in
  state w !! "username" = Some (PStr "octocat") /\
  state w !! "user_info" = Some Samples.octocat_record /\
  is_Some (state w !! "repos") /\
  (2 < size (state w))%nat.
Proof.
  cbv zeta. split; [by vm_compute|]. split; [by vm_compute|].
  split; [vm_compute; eauto|]. vm_compute. lia.
Qed.

(** C7, amended. When both fetches have succeeded, the join method begins
    in the state the flow had when the producers started, which holds the
    [username] given to the kickoff, with two keys added: the profile
    record under [user_info] and the text made of the list of
    repositories under [repos]. *)
Theorem joined_state E w u ui rp :
  state w !! "username" = Some u ->
  fst (get_github_user_info E u fresh) = Ok ui -> truthy ui = true ->
  fst (get_github_repos E u fresh) = Ok rp -> truthy rp = true ->
  exists text w',
    flattened E rp = Ok text /\
    kickoff E [] w = generate_roast E w' /\
    state w' = <["repos" := PStr text]> (<["user_info" := ui]> (state w)) /\
    dom (state w') = dom (state w) ∪ {["user_info"; "repos"]} /\
    "username" ∈ dom (state w').
Proof.
  intros Hu HU Tui HR Trp.
  destruct (kickoff_joined E _ _ Hu ui rp HU HR Tui Trp)
    as (text & Htext & _ & ->).
  eexists text, _. split; [done|]. split; [reflexivity|].
  cbn [state]. split; [done|].
  assert ("username" ∈ dom (state w)) as Hin by (apply elem_of_dom; eauto).
  rewrite !dom_insert_L. clear -Hin. split.
  - apply leibniz_equiv, set_equiv. intros x.
    rewrite !elem_of_union. tauto.
  - do 2 (apply elem_of_union; right). done.
Qed.

Lemma joined_state_witness :
  exists text w',
    flattened Samples.live (PList [Samples.spoon_knife_record]) = Ok text /\
    kickoff Samples.live [] (started "octocat") =
      generate_roast Samples.live w' /\
    state w' =
      <["repos" := PStr text]>
        (<["user_info" := Samples.octocat_record]>
           (state (started "octocat"))) /\
    dom (state w') =
      dom (state (started "octocat")) ∪ {["user_info"; "repos"]} /\
    "username" ∈ dom (state w').
Proof.
  apply (joined_state Samples.live (started "octocat") (PStr "octocat")
           Samples.octocat_record (PList [Samples.spoon_knife_record]));
    reflexivity.
Defined.

(** ** A user without repositories *)

Lemma repos_of_empty_list E username :
  requests_get E (repos_url E username) = Ok (Response 200 (Ok (PList []))) ->
  fst (get_github_repos E username fresh) = Ok (PList []).
Proof.
  intros Hget. unfold get_github_repos, http, bind, emit, lift, ret.
  cbn [fst snd]. unfold repos_url in Hget. by rewrite Hget.
Qed.

(** C8. When the lookup of the repositories is answered with status 200
    and an empty list, [start_repo_info] returns its error value and
    leaves the state as it was, so the key [repos] is not written; the run
    makes no generation call and does not succeed: if it returns, it
    returns [None], and [main] never gets to show a roast. *)
Theorem empty_repository_list E username w :
  state w !! "username" = Some (PStr username) ->
  requests_get E (repos_url E (PStr username)) =
    Ok (Response 200 (Ok (PList []))) ->
  start_repo_info E w =
    (Ok repos_error,
     World (state w) (log w ++ [HttpGet (repos_url E (PStr username))])) /\
  gen_calls (log (snd (run E username))) = 0%nat /\
  (forall v, fst (run E username) = Ok v -> v = PNone) /\
  (forall ui roast, main E username <> Ok (RoastPage ui roast)).
Proof.
  intros Hu Hget. apply repos_of_empty_list in Hget.
  split; [|split; [|split]].
  - rewrite (start_repo_info_spec E w (PStr username) Hu). by rewrite Hget.
  - fold (repos_of E username) in Hget.
    destruct (run_cases E username); by same_call.
  - fold (repos_of E username) in Hget.
    destruct (run_cases E username); same_call; try done;
      intros v; congruence.
  - fold (repos_of E username) in Hget. intros ui roast.
    unfold main. destruct (negb (truthy (PStr username))); [done|].
    destruct (run_cases E username); by same_call.
Qed.

Lemma empty_repository_list_witness :
  start_repo_info Samples.live (started "hermit") =
    (Ok repos_error,
     World (state (started "hermit"))
       (log (started "hermit") ++
        [HttpGet (repos_url Samples.live (PStr "hermit"))])) /\
  gen_calls (log (snd (run Samples.live "hermit"))) = 0%nat /\
  (forall v, fst (run Samples.live "hermit") = Ok v -> v = PNone) /\
  (forall ui roast, main Samples.live "hermit" <> Ok (RoastPage ui roast)).
Proof.
  apply (empty_repository_list Samples.live "hermit" (started "hermit")).
  - reflexivity.
  - reflexivity.
Defined.

(** ** The scenarios of the specification *)

(** Both lookups succeed, with 100 followers and one repository that is not
    a fork: the run returns the profile record and a text that is not
    empty, after two generation calls. *)
Example octocat_scenario :
  exists ui roast,
    fst (run Samples.live "octocat") = Ok (PTuple [ui; PStr roast]) /\
    subscript ui "followers" = Ok (PInt 100) /\
    roast <> "" /\
    gen_calls (log (snd (run Samples.live "octocat"))) = 2%nat.
Proof. eexists _, _. by repeat split. Qed.

(** The profile lookup is answered with 404: the run fails, whatever the
    lookup of the repositories would have given. *)
Example ghost_scenario :
  profile_of Samples.live "ghost-user-404" = Ok PNone /\
  fst (run Samples.live "ghost-user-404") = Ok PNone /\
  main Samples.live "ghost-user-404" =
    Ok (ErrorPage "The username provided does not exist.").
Proof. by repeat split. Qed.

(** * Further properties of the code *)

(** ** What the fetchers answer to *)

Lemma user_record_not_None data : user_record data <> Ok PNone.
Proof.
  intros Hr. destruct (user_record_inv _ _ Hr) as [items ->].
  by rewrite user_record_dict in Hr.
Qed.

(** X1. Once the request has returned, [get_github_user_info] returns
    [None] exactly when the status is not 200: with status 200 it returns
    a record or raises, never [None]. *)
Theorem user_info_None_iff_status E username w resp :
  requests_get E (user_url E username) = Ok resp ->
  fst (get_github_user_info E username w) = Ok PNone <->
  status_code resp <> 200.
Proof.
  intros Hget. unfold get_github_user_info, http, bind, emit, lift, ret.
  cbn [fst snd]. unfold user_url in Hget. rewrite Hget.
  destruct (status_code resp =? 200) eqn:Hcode; cbn [negb fst].
  - apply Z.eqb_eq in Hcode. split; [|done].
    destruct (json resp) as [data|]; cbn [fst]; [|done].
    intros Hr. by apply user_record_not_None in Hr.
  - apply Z.eqb_neq in Hcode. by split.
Qed.

Lemma user_info_None_iff_status_witness :
  fst (get_github_user_info Samples.live (PStr "ghost") fresh) = Ok PNone <->
  status_code (Response 404 (Ok (PDict [("message", PStr "Not Found")])))
    <> 200.
Proof.
  apply (user_info_None_iff_status Samples.live (PStr "ghost") fresh).
  reflexivity.
Defined.

(** X2. Likewise [get_github_repos] returns [None] exactly when the status
    is not 200: with status 200 it returns a list, maybe empty, or
    raises. *)
Theorem repos_None_iff_status E username w resp :
  requests_get E (repos_url E username) = Ok resp ->
  fst (get_github_repos E username w) = Ok PNone <->
  status_code resp <> 200.
Proof.
  intros Hget. unfold get_github_repos, http, bind, emit, lift, ret.
  cbn [fst snd]. unfold repos_url in Hget. rewrite Hget.
  destruct (status_code resp =? 200) eqn:Hcode; cbn [negb fst].
  - apply Z.eqb_eq in Hcode. split; [|done].
    destruct (json resp) as [payload|]; cbn [fst]; [|done].
    destruct (py_iter payload) as [items|]; cbn [rbind]; [|done].
    by destruct (mapM repo_record items).
  - apply Z.eqb_neq in Hcode. by split.
Qed.

Lemma repos_None_iff_status_witness :
  fst (get_github_repos Samples.live (PStr "hermit") (started "hermit")) =
    Ok PNone <->
  status_code (Response 200 (Ok (PList []))) <> 200.
Proof.
  apply (repos_None_iff_status Samples.live (PStr "hermit")
           (started "hermit")).
  reflexivity.
Defined.

(** ** The shape of the payload *)

Lemma mapM_repo_record_objects repos :
  Forall (fun repo => exists items, repo = PDict items) repos ->
  exists records,
    mapM repo_record repos = Ok records /\
    Forall2 (fun repo r =>
      repo_record repo = Ok r /\
      subscript r "name" = dict_get repo "name" PNone) repos records.
Proof.
  induction 1 as [|repo repos [items ->] _ (records & Hrec & Hall)].
  - exists []. split; [done|constructor].
  - cbn [mapM]. rewrite repo_record_dict, Hrec.
    eexists. split; [reflexivity|]. constructor; [|done].
    by rewrite repo_record_dict.
Qed.

(** X3. When the answer is a list of JSON objects, [get_github_repos]
    does not raise: it returns one record for each repository, in the
    order of the answer, and the name of each record is the name the
    answer gave (or [None]). *)
Theorem repos_one_record_each E username w repos :
  requests_get E (repos_url E username) =
    Ok (Response 200 (Ok (PList repos))) ->
  Forall (fun repo => exists items, repo = PDict items) repos ->
  exists records,
    fst (get_github_repos E username w) = Ok (PList records) /\
    length records = length repos /\
    Forall2 (fun repo r => subscript r "name" = dict_get repo "name" PNone)
      repos records.
Proof.
  intros Hget Hobj.
  destruct (mapM_repo_record_objects repos Hobj) as (records & Hrec & Hall).
  exists records. split; [|split].
  - unfold get_github_repos, http, bind, emit, lift, ret. cbn [fst snd].
    unfold repos_url in Hget. rewrite Hget.
    cbn [status_code json Z.eqb Pos.eqb negb fst py_iter rbind].
    by rewrite Hrec.
  - symmetry. by eapply Forall2_length.
  - eapply Forall2_impl; [exact Hall|]. by intros repo r [_ Hname].
Qed.

Lemma repos_one_record_each_witness :
  exists records,
    fst (get_github_repos Samples.live (PStr "octocat") fresh) =
      Ok (PList records) /\
    length records = length [Samples.spoon_knife] /\
    Forall2 (fun repo r => subscript r "name" = dict_get repo "name" PNone)
      [Samples.spoon_knife] records.
Proof.
  apply (repos_one_record_each Samples.live (PStr "octocat") fresh
           [Samples.spoon_knife]).
  - reflexivity.
  - repeat constructor. by eexists.
Defined.

Lemma repo_record_result repo :
  (exists r, repo_record repo = Ok r) \/
  repo_record repo = Raise (AttributeError "get").
Proof. destruct repo; (by right) || (left; by eexists). Qed.

Lemma mapM_repo_record_raises repos bad :
  In bad repos -> (forall items, bad <> PDict items) ->
  mapM repo_record repos = Raise (AttributeError "get").
Proof.
  intros Hin Hbad. induction repos as [|repo repos IH]; [done|].
  cbn [mapM].
  destruct (repo_record_result repo) as [[r Hr]| ->]; [|done].
  rewrite Hr. destruct Hin as [->|Hin].
  - destruct (repo_record_inv _ _ Hr) as [items ->]. by destruct (Hbad items).
  - by rewrite (IH Hin).
Qed.

(** X4. When the answer to the profile request has status 200 and a body
    that is not a JSON object, [get_github_user_info] raises the
    [AttributeError] of [data.get]: it does not return [None]. *)
Theorem user_info_wrong_shape E username w data :
  requests_get E (user_url E username) = Ok (Response 200 (Ok data)) ->
  (forall items, data <> PDict items) ->
  fst (get_github_user_info E username w) = Raise (AttributeError "get").
Proof.
  intros Hget Hshape.
  unfold get_github_user_info, http, bind, emit, lift, ret. cbn [fst snd].
  unfold user_url in Hget. rewrite Hget.
  cbn [status_code json Z.eqb Pos.eqb negb fst].
  destruct data; try done. by destruct (Hshape items).
Qed.

Lemma user_info_wrong_shape_witness :
  fst (get_github_user_info Corners.live (PStr "odd") fresh) =
    Raise (AttributeError "get").
Proof.
  apply (user_info_wrong_shape Corners.live (PStr "odd") fresh (PList [])).
  - reflexivity.
  - discriminate.
Defined.

(** X5. When the list of repositories holds one element that is not a
    JSON object, [get_github_repos] raises the [AttributeError] of
    [repo.get] and returns no list at all, whatever the other elements
    are. *)
Theorem repos_all_or_nothing E username w repos bad :
  requests_get E (repos_url E username) =
    Ok (Response 200 (Ok (PList repos))) ->
  In bad repos -> (forall items, bad <> PDict items) ->
  fst (get_github_repos E username w) = Raise (AttributeError "get").
Proof.
  intros Hget Hin Hbad.
  unfold get_github_repos, http, bind, emit, lift, ret. cbn [fst snd].
  unfold repos_url in Hget. rewrite Hget.
  cbn [status_code json Z.eqb Pos.eqb negb fst py_iter rbind].
  by rewrite (mapM_repo_record_raises repos bad Hin Hbad).
Qed.

Lemma repos_all_or_nothing_witness :
  fst (get_github_repos Corners.live (PStr "odd") fresh) =
    Raise (AttributeError "get").
Proof.
  apply (repos_all_or_nothing Corners.live (PStr "odd") fresh
           [Samples.spoon_knife; PInt 7] (PInt 7)).
  - reflexivity.
  - cbn. tauto.
  - discriminate.
Defined.

(** X6. In every record of a successful call of [get_github_repos] the
    counts, the topics and the fork flag come from the keys
    [stargazers_count], [forks_count], [open_issues_count], [topics] and
    [fork] of the answer, and are 0, 0, 0, the empty list and [False] when
    the key is absent; the record has its ten keys in the order of the
    literal. *)
Theorem repos_defaults E username records :
  repos_of E username = Ok (PList records) ->
  exists payload items,
    requests_get E (repos_url E (PStr username)) =
      Ok (Response 200 (Ok payload)) /\
    py_iter payload = Ok items /\
    Forall2 (fun repo r =>
      exists upstream fields,
        repo = PDict upstream /\ r = PDict fields /\
        map fst fields =
          [ "name"; "description"; "language"; "stars"; "forks"; "issues";
            "created_at"; "updated_at"; "topics"; "is_fork" ] /\
        assoc "stars" fields =
          Some (field upstream "stargazers_count" (PInt 0)) /\
        assoc "forks" fields = Some (field upstream "forks_count" (PInt 0)) /\
        assoc "issues" fields =
          Some (field upstream "open_issues_count" (PInt 0)) /\
        assoc "topics" fields = Some (field upstream "topics" (PList [])) /\
        assoc "is_fork" fields = Some (field upstream "fork" (PBool false)))
      items records.
Proof.
  intros HR.
  destruct (get_github_repos_value _ _ _ _ HR)
    as [|(payload & items & records' & Hget & Hit & Hrec & [= <-])];
    [done|].
  exists payload, items. repeat split; [done..|].
  apply mapM_Forall2 in Hrec.
  eapply Forall2_impl; [exact Hrec|].
  intros repo r Hr. cbv beta in Hr.
  destruct (repo_record_inv _ _ Hr) as [upstream ->].
  rewrite repo_record_dict in Hr. injection Hr as <-.
  eexists upstream, _. by repeat split.
Qed.

Lemma repos_defaults_witness :
  exists payload items,
    requests_get Samples.live (repos_url Samples.live (PStr "octocat")) =
      Ok (Response 200 (Ok payload)) /\
    py_iter payload = Ok items /\
    Forall2 (fun repo r =>
      exists upstream fields,
        repo = PDict upstream /\ r = PDict fields /\
        map fst fields =
          [ "name"; "description"; "language"; "stars"; "forks"; "issues";
            "created_at"; "updated_at"; "topics"; "is_fork" ] /\
        assoc "stars" fields =
          Some (field upstream "stargazers_count" (PInt 0)) /\
        assoc "forks" fields = Some (field upstream "forks_count" (PInt 0)) /\
        assoc "issues" fields =
          Some (field upstream "open_issues_count" (PInt 0)) /\
        assoc "topics" fields = Some (field upstream "topics" (PList [])) /\
        assoc "is_fork" fields = Some (field upstream "fork" (PBool false)))
      items [Samples.spoon_knife_record].
Proof.
  apply (repos_defaults Samples.live "octocat"). reflexivity.
Defined.

(** ** The start methods *)

(** X7. What [start_user_info] does, by what it finds. Without a
    [username] in the state it raises [KeyError] and does nothing. With
    one, it makes the profile request; what the fetch raises it raises,
    with the state as it was; for a value that fails the truth test (the
    [None] of a status other than 200) it returns the error dictionary,
    with the state as it was; and a record it stores under [user_info]
    and returns, touching no other key. *)
Theorem start_user_info_outcome E w :
  start_user_info E w =
  match state w !! "username" with
  | None => (Raise (KeyError "username"), w)
  | Some u =>
      let requested := (log w ++ [HttpGet (user_url E u)])%list in
      match fst (get_github_user_info E u fresh) with
      | Raise e => (Raise e, World (state w) requested)
      | Ok v =>
          if truthy v then
            (Ok v, World (<["user_info" := v]> (state w)) requested)
          else
            (Ok (PDict [("error", PStr "Failed to fetch user data")]),
             World (state w) requested)
      end
  end.
Proof.
  destruct (state w !! "username") as [u|] eqn:Hu.
  - by rewrite (start_user_info_spec E w u Hu).
  - unfold start_user_info, bind, state_index. by rewrite Hu.
Qed.

(** X8. What [start_repo_info] does, by what it finds. Without a
    [username] in the state it raises [KeyError] and does nothing. With
    one, it makes the repositories request; what the fetch raises it
    raises, with the state as it was; for a value that fails the truth
    test ([None], or an empty list) it returns the error dictionary, with
    the state as it was; and for a list of records it stores under
    [repos], and returns, the text that joins the renderings of the
    records, a string that is not empty: the rendering of what
    [get_github_repos] returned does not fail. *)
Theorem start_repo_info_outcome E w :
  match state w !! "username" with
  | None => start_repo_info E w = (Raise (KeyError "username"), w)
  | Some u =>
      let requested := (log w ++ [HttpGet (repos_url E u)])%list in
      match fst (get_github_repos E u fresh) with
      | Raise e => start_repo_info E w = (Raise e, World (state w) requested)
      | Ok v =>
          if truthy v then
            exists items texts,
              py_iter v = Ok items /\
              mapM (render_repo E) items = Ok texts /\
              join nlnl texts <> "" /\
              start_repo_info E w =
                (Ok (PStr (join nlnl texts)),
                 World (<["repos" := PStr (join nlnl texts)]> (state w))
                   requested)
          else
            start_repo_info E w =
              (Ok (PDict [("error",
                           PStr "Failed to fetch repositories data")]),
               World (state w) requested)
      end
  end.
Proof.
  destruct (state w !! "username") as [u|] eqn:Hu.
  - rewrite (start_repo_info_spec E w u Hu). cbn zeta.
    destruct (fst (get_github_repos E u fresh)) as [v|e] eqn:HR; [|done].
    destruct (truthy v) eqn:Tv; [|done].
    destruct (flattened_repos E u fresh v HR Tv) as (text & Htext & Hne).
    rewrite Htext. unfold flattened in Htext.
    destruct (py_iter v) as [items|]; [|done]. cbn [rbind] in Htext.
    destruct (mapM (render_repo E) items) as [texts|] eqn:Hm; [|done].
    cbn [rbind] in Htext. injection Htext as <-.
    by exists items, texts.
  - unfold start_repo_info, bind, state_index. by rewrite Hu.
Qed.

(** X9. The number of open issues is fetched but never reaches the text:
    two answers that differ only in [open_issues_count] give records with
    the same rendering. *)
Theorem render_ignores_issues E upstream1 upstream2 :
  (forall k, k <> "open_issues_count" ->
     assoc k upstream1 = assoc k upstream2) ->
  rbind (repo_record (PDict upstream1)) (render_repo E) =
  rbind (repo_record (PDict upstream2)) (render_repo E).
Proof.
  intros Hsame.
  assert (forall k d, k <> "open_issues_count" ->
            field upstream1 k d = field upstream2 k d) as Hf.
  { intros k d Hk. unfold field. by rewrite (Hsame k Hk). }
  rewrite !repo_record_dict.
  rewrite (Hf "name"), (Hf "description"), (Hf "language"),
    (Hf "stargazers_count"), (Hf "forks_count"), (Hf "created_at"),
    (Hf "updated_at"), (Hf "topics"), (Hf "fork") by discriminate.
  reflexivity.
Qed.

Lemma render_ignores_issues_witness :
  rbind (repo_record
           (PDict [("name", PStr "a"); ("open_issues_count", PInt 3)]))
    (render_repo Samples.live) =
  rbind (repo_record
           (PDict [("open_issues_count", PInt 40); ("name", PStr "a")]))
    (render_repo Samples.live).
Proof.
  apply (render_ignores_issues Samples.live).
  intros k Hk. cbn [assoc].
  destruct (String.eqb_spec k "name") as [->|Hn].
  - reflexivity.
  - destruct (String.eqb_spec k "open_issues_count") as [->|Hi]; [done|].
    reflexivity.
Defined.

(** ** The join method *)

Lemma http_requests_app l1 l2 :
  http_requests (l1 ++ l2) = (http_requests l1 ++ http_requests l2)%list.
Proof.
  induction l1 as [|ev l1 IH]; [done|].
  destruct ev; cbn [app http_requests]; by rewrite ?IH.
Qed.

Lemma gen_calls_app l1 l2 :
  gen_calls (l1 ++ l2) = (gen_calls l1 + gen_calls l2)%nat.
Proof.
  induction l1 as [|ev l1 IH]; [done|].
  destruct ev; cbn [app gen_calls]; by rewrite ?IH.
Qed.

Lemma gen_trace_app l1 l2 :
  gen_trace (l1 ++ l2) = (gen_trace l1 ++ gen_trace l2)%list.
Proof.
  induction l1 as [|ev l1 IH]; [done|].
  destruct ev; cbn [app gen_trace]; by rewrite ?IH.
Qed.

(** The three ways [generate_roast] can go, told by the state alone: the
    guard is closed; the guard is open and the state has no [username];
    the guard is open and the crew is kicked off. *)
Lemma generate_roast_cases E w :
  ((truthy (default PNone (state w !! "user_info")) = false \/
    truthy (default PNone (state w !! "repos")) = false) /\
   generate_roast E w = (Ok PNone, w)) \/
  (exists ui rp,
     state w !! "user_info" = Some ui /\ truthy ui = true /\
     state w !! "repos" = Some rp /\ truthy rp = true /\
     state w !! "username" = None /\
     generate_roast E w = (Raise (KeyError "username"), w)) \/
  (exists u ui rp,
     state w !! "user_info" = Some ui /\ truthy ui = true /\
     state w !! "repos" = Some rp /\ truthy rp = true /\
     state w !! "username" = Some u).
Proof.
  destruct (truthy (default PNone (state w !! "user_info"))) eqn:Tui;
    [|left; split; [by left|apply generate_roast_guard; by left]].
  destruct (truthy (default PNone (state w !! "repos"))) eqn:Trp;
    [|left; split; [by right|apply generate_roast_guard; by right]].
  right.
  destruct (state w !! "user_info") as [ui|] eqn:Hui; [|done].
  destruct (state w !! "repos") as [rp|] eqn:Hrp; [|done].
  cbv [default from_option id] in Tui, Trp.
  destruct (state w !! "username") as [u|] eqn:Hu.
  - right. by exists u, ui, rp.
  - left. exists ui, rp. repeat split; [done..|].
    unfold generate_roast, bind, state_get, state_index, ret.
    rewrite Hui, Hrp. cbn beta iota. rewrite Tui, Trp.
    cbn [negb orb]. cbn beta iota. by rewrite Hu.
Qed.

(** What [generate_roast] returns and adds to the log depends on the state
    only, and it hands the state on as it found it. *)
Lemma generate_roast_frame E w :
  generate_roast E w =
  (fst (generate_roast E (World (state w) [])),
   World (state w)
     (log w ++ log (snd (generate_roast E (World (state w) []))))).
Proof.
  destruct (generate_roast_cases E w)
    as [[Hclosed ->]|[(ui & rp & Hui & Tui & Hrp & Trp & Hu & ->)|
        (u & ui & rp & Hui & Tui & Hrp & Trp & Hu)]].
  - rewrite (generate_roast_guard E (World (state w) [])) by done.
    cbn [fst snd log]. rewrite (right_id_L [] (++)%list). by destruct w.
  - destruct (generate_roast_cases E (World (state w) []))
      as [[[Hc|Hc] _]|[(ui' & rp' & _ & _ & _ & _ & _ & ->)|
          (u' & _ & _ & _ & _ & _ & _ & Hu')]];
      cbn [state] in *.
    + rewrite Hui in Hc. cbv [default from_option id] in Hc. congruence.
    + rewrite Hrp in Hc. cbv [default from_option id] in Hc. congruence.
    + cbn [fst snd log]. rewrite (right_id_L [] (++)%list). by destruct w.
    + congruence.
  - rewrite (generate_roast_joined E w u ui rp) by done.
    rewrite (generate_roast_joined E (World (state w) []) u ui rp) by done.
    cbn zeta.
    destruct (generate E data_analyst analysis_task _ []) as [a|e]; [|done].
    by destruct (generate E comedian roast_task _ [a]).
Qed.

(** X10. [generate_roast] reads the state and never writes it, and it
    makes no request: whatever it returns or raises, the state after it
    is the state before it and the requests in the log are the same. *)
Theorem generate_roast_keeps_state E w :
  state (snd (generate_roast E w)) = state w /\
  http_requests (log (snd (generate_roast E w))) = http_requests (log w).
Proof.
  split; [by rewrite generate_roast_frame|].
  destruct (generate_roast_cases E w)
    as [[_ ->]|[(ui & rp & _ & _ & _ & _ & _ & ->)|
        (u & ui & rp & Hui & Tui & Hrp & Trp & Hu)]]; [done..|].
  rewrite (generate_roast_joined E w u ui rp) by done. cbn zeta.
  destruct (generate E data_analyst analysis_task _ []) as [a|e];
    [destruct (generate E comedian roast_task _ [a])|];
    cbn [snd log]; rewrite http_requests_app; cbn [http_requests];
    by rewrite (right_id_L [] (++)%list).
Qed.

(** X11. [generate_roast] invokes the generation capability exactly when
    the state holds values that pass the truth test under both
    [user_info] and [repos] and has a [username]; in every other state it
    makes no generation call. *)
Theorem generation_starts_iff E w :
  (gen_calls (log w) < gen_calls (log (snd (generate_roast E w))))%nat <->
  exists u ui rp,
    state w !! "username" = Some u /\
    state w !! "user_info" = Some ui /\ truthy ui = true /\
    state w !! "repos" = Some rp /\ truthy rp = true.
Proof.
  destruct (generate_roast_cases E w)
    as [[Hclosed ->]|[(ui & rp & Hui & Tui & Hrp & Trp & Hu & ->)|
        (u & ui & rp & Hui & Tui & Hrp & Trp & Hu)]]; cbn [snd].
  - split; [lia|]. intros (u & ui & rp & _ & Hui & Tui & Hrp & Trp).
    rewrite Hui, Hrp in Hclosed. cbv [default from_option id] in Hclosed.
    destruct Hclosed; congruence.
  - split; [lia|]. intros (u & _ & _ & Hu' & _). congruence.
  - split; [intros _; by exists u, ui, rp|intros _].
    rewrite (generate_roast_joined E w u ui rp) by done. cbn zeta.
    destruct (generate E data_analyst analysis_task _ []) as [a|e];
      [destruct (generate E comedian roast_task _ [a])|];
      cbn [snd log]; rewrite gen_calls_app; cbn [gen_calls]; lia.
Qed.

(** ** The run as a whole *)



(** X13. The flow raises nothing of its own: an exception that leaves the
    run was raised by one of the two fetches or by one of the two
    generation calls. *)
Theorem run_raises_only E username e :
  fst (run E username) = Raise e ->
  profile_of E username = Raise e \/
  repos_of E username = Raise e \/
  (exists ui text,
     generate E data_analyst analysis_task
       (crew_inputs E (PStr username) (PStr text) ui) [] = Raise e) \/
  (exists ui text a,
     generate E comedian roast_task
       (crew_inputs E (PStr username) (PStr text) ui) [a] = Raise e).
Proof.
  intros Hraise.
  destruct (run_cases E username) as
    [e' HU|ui e' HU HR| |ui rp text e' HU Tui HR Trp Htext Ha|
     ui rp text a e' HU Tui HR Trp Htext Ha Hr| ];
    try discriminate Hraise; injection Hraise as ->.
  - by left.
  - right; by left.
  - right; right; left. by exists ui, text.
  - right; right; right. by exists ui, text, a.
Qed.

Lemma run_raises_only_witness :
  profile_of Corners.live "down" = Raise (RequestException "timed out") \/
  repos_of Corners.live "down" = Raise (RequestException "timed out") \/
  (exists ui text,
     generate Corners.live data_analyst analysis_task
       (crew_inputs Corners.live (PStr "down") (PStr text) ui) [] =
     Raise (RequestException "timed out")) \/
  (exists ui text a,
     generate Corners.live comedian roast_task
       (crew_inputs Corners.live (PStr "down") (PStr text) ui) [a] =
     Raise (RequestException "timed out")).
Proof.
  apply (run_raises_only Corners.live "down"). reflexivity.
Defined.

(** X14. Every run makes the two requests, one for the profile and one
    for the repositories, and no third one, whatever the fetches return
    or raise: neither a profile that was not found nor a profile request
    that raised keeps the repositories from being asked for. *)
Theorem run_requests E username :
  Permutation (http_requests (log (snd (run E username))))
    [user_url E (PStr username); repos_url E (PStr username)].
Proof. by destruct (run_cases E username). Qed.



(** ** The order of the two start methods *)

(** One start method, stepped in front of a continuation. *)
Ltac step_user u HU :=
  unfold bind at 1;
  rewrite (start_user_info_spec _ _ u)
    by (cbn [state]; rewrite ?lookup_insert_ne by done; done);
  rewrite HU; cbn zeta.

Ltac step_repos u HR :=
  unfold bind at 1;
  rewrite (start_repo_info_spec _ _ u)
    by (cbn [state]; rewrite ?lookup_insert_ne by done; done);
  rewrite HR; cbn zeta.

(** X16. The two start methods can run in either order: when both fetches
    return, the join method finds the same state, the run returns or
    raises the same, and the same generation calls are made. Each start
    method reads [username] only and writes a key of its own. *)
Theorem start_methods_commute E w u vu vr :
  state w !! "username" = Some u ->
  fst (get_github_user_info E u fresh) = Ok vu ->
  fst (get_github_repos E u fresh) = Ok vr ->
  let a := (start_user_info E ;;; start_repo_info E ;;; generate_roast E) w in
  let b := (start_repo_info E ;;; start_user_info E ;;; generate_roast E) w in
  fst a = fst b /\ state (snd a) = state (snd b) /\
  gen_trace (log (snd a)) = gen_trace (log (snd b)).
Proof.
  intros Hu HU HR a b.
  assert (exists st la lb,
            a = generate_roast E (World st la) /\
            b = generate_roast E (World st lb) /\
            gen_trace la = gen_trace lb) as (st & la & lb & -> & -> & Hl).
  { subst a b.
    destruct (truthy vu) eqn:Tvu; destruct (truthy vr) eqn:Tvr.
    - destruct (flattened_repos E u fresh vr HR Tvr) as (text & Htext & _).
      eexists _, _, _. split; [|split].
      + step_user u HU. rewrite Tvu. step_repos u HR.
        rewrite Tvr, Htext. reflexivity.
      + step_repos u HR. rewrite Tvr, Htext. step_user u HU.
        rewrite Tvu. cbn [state log].
        by rewrite (insert_insert_ne _ "user_info" "repos").
      + cbn [log]. rewrite !gen_trace_app. done.
    - eexists _, _, _. split; [|split].
      + step_user u HU. rewrite Tvu. step_repos u HR. rewrite Tvr.
        reflexivity.
      + step_repos u HR. rewrite Tvr. step_user u HU. rewrite Tvu.
        reflexivity.
      + cbn [log]. rewrite !gen_trace_app. done.
    - destruct (flattened_repos E u fresh vr HR Tvr) as (text & Htext & _).
      eexists _, _, _. split; [|split].
      + step_user u HU. rewrite Tvu. step_repos u HR.
        rewrite Tvr, Htext. reflexivity.
      + step_repos u HR. rewrite Tvr, Htext. step_user u HU.
        rewrite Tvu. reflexivity.
      + cbn [log]. rewrite !gen_trace_app. done.
    - eexists _, _, _. split; [|split].
      + step_user u HU. rewrite Tvu. step_repos u HR. rewrite Tvr.
        reflexivity.
      + step_repos u HR. rewrite Tvr. step_user u HU. rewrite Tvu.
        reflexivity.
      + cbn [log]. rewrite !gen_trace_app. done. }
  rewrite (generate_roast_frame E (World st la)).
  rewrite (generate_roast_frame E (World st lb)).
  cbn [fst snd state log]. repeat split.
  rewrite !gen_trace_app. by rewrite Hl.
Qed.

Lemma start_methods_commute_witness :
  let a := (start_user_info Samples.live ;;; start_repo_info Samples.live ;;;
            generate_roast Samples.live) (started "octocat") in
  let b := (start_repo_info Samples.live ;;; start_user_info Samples.live ;;;
            generate_roast Samples.live) (started "octocat") in
  fst a = fst b /\ state (snd a) = state (snd b) /\
  gen_trace (log (snd a)) = gen_trace (log (snd b)).
Proof.
  apply (start_methods_commute Samples.live (started "octocat")
           (PStr "octocat") Samples.octocat_record
           (PList [Samples.spoon_knife_record])); reflexivity.
Defined.

(** ** The page *)

Lemma main_ui_clicked E username :
  username <> "" ->
  page_of E username true =
  match fst (run E username) with
  | Raise e => (Raise e, page_head ++ [spinner_of username])%list
  | Ok result =>
      if truthy result then
        show_result E result (page_head ++ [spinner_of username])%list
      else
        (Ok tt,
         page_head ++
         [spinner_of username;
          st_error "The username provided does not exist."])%list
  end.
Proof.
  intros Hne. unfold page_of, main_ui, ui_bind, show, ui_lift, ui_ret.
  cbn [app]. assert (truthy (PStr username) = true) as -> by by destruct username.
  cbn [negb]. destruct (fst (run E username)) as [result|e]; [|done].
  by destruct (truthy result).
Qed.

(** X17. When the profile of the answer has no creation date (the key is
    absent or null), a run that has succeeded ends in a [TypeError]: the
    two generation calls have been made, the header and the avatar are on
    the page, and the slice of [None] raises before the profile and the
    roast are shown. *)
Theorem page_fails_without_date E username v items :
  username <> "" ->
  fst (run E username) = Ok v -> truthy v = true ->
  requests_get E (user_url E (PStr username)) =
    Ok (Response 200 (Ok (PDict items))) ->
  absent_or_null (PDict items) "created_at" ->
  page_of E username true =
    (Raise (TypeError "slice"),
     page_head ++
     [ spinner_of username; st_markdown (PStr "## GitHub Profile");
       in_column 1 (st_image (field items "avatar_url" PNone) 200) ])%list /\
  gen_calls (log (snd (run E username))) = 2%nat.
Proof.
  intros Hne Hv Tv Hget Habs.
  rewrite (main_ui_clicked E username Hne).
  pose proof (profile_of_payload E username items Hget) as HU.
  rewrite user_record_dict in HU.
  pose proof (run_cases E username) as Hcase.
  remember (fst (run E username)) as result eqn:Hres.
  destruct Hcase as [| | | | |ui rp text a r HU' Tui];
    try discriminate Hv; injection Hv as <-; [discriminate Tv|].
  split; [|done].
  rewrite HU in HU'. injection HU' as <-.
  cbn [truthy]. unfold show_result, ui_bind, ui_lift, show.
  cbn [py_iter]. cbn [subscript assoc String.eqb Ascii.eqb Bool.eqb].
  unfold profile_markdown.
  cbn [subscript assoc String.eqb Ascii.eqb Bool.eqb rbind].
  rewrite (absent_or_null_field _ _ Habs). cbn [slice_to rbind].
  by rewrite <- !(assoc_L (++)%list).
Qed.

Lemma page_fails_without_date_witness :
  page_of Corners.live "dateless" true =
    (Raise (TypeError "slice"),
     page_head ++
     [ spinner_of "dateless"; st_markdown (PStr "## GitHub Profile");
       in_column 1
         (st_image (PStr "https://avatars.githubusercontent.com/u/1")
            200) ])%list /\
  gen_calls (log (snd (run Corners.live "dateless"))) = 2%nat.
Proof.
  eapply (page_fails_without_date Corners.live "dateless" _
            Corners.dateless_items).
  - discriminate.
  - reflexivity.
  - reflexivity.
  - reflexivity.
  - eexists. split; [reflexivity|]. by left.
Defined.

Lemma append_assoc_string (a b c : string) : (a ++ b) ++ c = a ++ b ++ c.
Proof.
  induction a as [|ch a IH]; [done|].
  change (String ch ((a ++ b) ++ c) = String ch (a ++ b ++ c)).
  by rewrite IH.
Qed.

Lemma peel_front (a t tail : string) :
  (exists before, t = before ++ tail) ->
  exists before, a ++ t = before ++ tail.
Proof.
  intros [before ->]. exists (a ++ before). by rewrite append_assoc_string.
Qed.

(** X18. When the creation date of the answer is a string, a run that has
    succeeded is shown whole: the header, the avatar in the first column,
    the profile in the second, where the date is cut to its first ten
    characters, and the roast, which is the output of the second
    generation call, last. *)
Theorem page_of_success E username v items created :
  username <> "" ->
  fst (run E username) = Ok v -> truthy v = true ->
  requests_get E (user_url E (PStr username)) =
    Ok (Response 200 (Ok (PDict items))) ->
  field items "created_at" PNone = PStr created ->
  exists ui roast text,
    v = PTuple [ui; roast] /\
    page_of E username true =
      (Ok tt,
       page_head ++
       [ spinner_of username; st_markdown (PStr "## GitHub Profile");
         in_column 1 (st_image (field items "avatar_url" PNone) 200);
         in_column 2 (st_markdown (PStr text));
         st_markdown (PStr "## The Roast 🔥");
         st_markdown roast ])%list /\
    exists before,
      text = before ++ "- **GitHub member since:** "
             ++ take_chars 10 created ++ profile_line.
Proof.
  intros Hne Hv Tv Hget Hdate.
  rewrite (main_ui_clicked E username Hne).
  pose proof (profile_of_payload E username items Hget) as HU.
  rewrite user_record_dict in HU.
  pose proof (run_cases E username) as Hcase.
  remember (fst (run E username)) as result eqn:Hres.
  destruct Hcase as [| | | | |ui rp text a r HU' Tui];
    try discriminate Hv; injection Hv as <-; [discriminate Tv|].
  rewrite HU in HU'. injection HU' as <-.
  cbn [truthy]. unfold show_result, ui_bind, ui_lift, show.
  cbn [py_iter]. cbn [subscript assoc String.eqb Ascii.eqb Bool.eqb].
  unfold profile_markdown.
  cbn [subscript assoc String.eqb Ascii.eqb Bool.eqb rbind].
  rewrite Hdate. cbn [slice_to rbind fmt].
  rewrite <- !(assoc_L (++)%list). cbn [app].
  eexists _, (PStr r), _. split; [reflexivity|].
  split; [reflexivity|].
  repeat first [by exists "" | apply peel_front].
Qed.

Lemma page_of_success_witness :
  exists ui roast text,
    PTuple [Samples.octocat_record; PStr "roast"] = PTuple [ui; roast] /\
    page_of Samples.live "octocat" true =
      (Ok tt,
       page_head ++
       [ spinner_of "octocat"; st_markdown (PStr "## GitHub Profile");
         in_column 1
           (st_image (PStr "https://avatars.githubusercontent.com/u/583231")
              200);
         in_column 2 (st_markdown (PStr text));
         st_markdown (PStr "## The Roast 🔥");
         st_markdown roast ])%list /\
    exists before,
      text = before ++ "- **GitHub member since:** "
             ++ take_chars 10 "2011-01-25T18:44:36Z" ++ profile_line.
Proof.
  eapply (page_of_success Samples.live "octocat" _
            [ ("login", PStr "octocat"); ("name", PStr "The Octocat");
              ("company", PStr "@github"); ("bio", PNone);
              ("followers", PInt 100); ("following", PInt 9);
              ("public_repos", PInt 5);
              ("created_at", PStr "2011-01-25T18:44:36Z");
              ("avatar_url",
               PStr "https://avatars.githubusercontent.com/u/583231") ]).
  - discriminate.
  - reflexivity.
  - reflexivity.
  - reflexivity.
  - reflexivity.
Defined.

(** X19. After a click the page follows the result of the run: an
    exception of the run leaves [main] as it is; a message of failure is
    the last thing shown; and a pair is shown up to the roast, which comes
    last, unless the lookup of the avatar or the text of the profile
    raises. *)
Theorem page_agrees_with_main E username :
  match main E username with
  | Raise e => fst (page_of E username true) = Raise e
  | Ok (ErrorPage message) =>
      exists before,
        page_of E username true = (Ok tt, before ++ [st_error message])%list
  | Ok (RoastPage user_info roast) =>
      fst (page_of E username true) =
        (let? _ := subscript user_info "avatar_url" in
         let? _ := profile_markdown E user_info in Ok tt) /\
      (fst (page_of E username true) = Ok tt ->
       exists before,
         snd (page_of E username true) = (before ++ [st_markdown roast])%list)
  end.
Proof.
  destruct (String.eqb_spec username "") as [->|Hne].
  { by exists page_head. }
  rewrite (main_ui_clicked E username Hne). unfold main.
  assert (truthy (PStr username) = true) as -> by by destruct username.
  cbn [negb]. destruct (fst (run E username)) as [result|e]; [|done].
  cbn [rbind]. destruct (truthy result); cbn [negb]; last first.
  { exists (page_head ++ [spinner_of username])%list.
    by rewrite <- (assoc_L (++)%list). }
  unfold show_result, ui_bind, ui_lift, show.
  destruct (py_iter result) as [[|ui [|roast [|]]]|e]; try done.
  cbn [rbind].
  destruct (subscript ui "avatar_url") as [avatar|e]; [|done].
  destruct (profile_markdown E ui) as [text|e]; [|done].
  cbn [rbind fst snd]. split; [done|]. intros _.
  eexists. reflexivity.
Qed.
